(** * Task Manager API (src/app.py): the in-memory task store and its handlers

    A shallow embedding of the request-handling layer of [app.py]: the two
    module-level variables [tasks_db] and [task_id_counter], the five task
    handlers, the pydantic models that guard their inputs and outputs, and
    the route table that turns a handler's result into an HTTP response.

    Modelling conventions.
    - A Python [int] is a [Z]; a Python [str] is a [string], one character
      per element, so that [String.length] is Python's [len].
    - A task dictionary, which always carries the same five keys, is a
      record.  Mutating the dictionary found in [tasks_db] is an update of
      the list at the index where it was found.
    - [datetime.utcnow().isoformat()] is an input of the step that reads it.
    - A handler is a state transformer that may raise [HTTPException]; a
      raise keeps whatever state the handler had reached.
    - The handlers are given twice: first with their effect on the store
      alone, then in full ([Module Full]), with the log records and the
      span they emit, together with [root] and [health_check].
    - The tests of [tests/test_api.py] are programs that send requests to
      the service and check the answers ([Module Tests]). *)

From stdpp Require Import base option list sorting strings pretty.

Local Open Scope Z_scope.

(** ** Pydantic models *)

(** [Field(..., min_length=, max_length=)] on a [str]. *)
Definition min_length (n : nat) (s : string) : bool :=
  bool_decide (n ≤ String.length s)%nat.

Definition max_length (n : nat) (s : string) : bool :=
  bool_decide (String.length s ≤ n)%nat.

Module TaskBase.
(** [title: str = Field(..., min_length=1, max_length=100)] *)
Definition title_field (s : string) : bool :=
  min_length 1 s && max_length 100 s.

(** [description: Optional[str] = Field(None, max_length=500)] *)
Definition description_field (d : option string) : bool :=
  match d with
  | None => true
  | Some s => max_length 500 s
  end.
End TaskBase.

Module TaskCreate.
(** [class TaskCreate(TaskBase): pass] *)
Record t : Type := mk {
  title : string;
  description : option string;
  completed : bool
}.
End TaskCreate.

Module Task.
(** [class Task(TaskBase)] adds [id] and [created_at]; the dictionaries
    kept in [tasks_db] have exactly these keys. *)
Record t : Type := mk {
  id : Z;
  title : string;
  description : option string;
  completed : bool;
  created_at : string
}.

(** Validation of a value against the model, as done for a
    [response_model]: the inherited field constraints. *)
Definition validate (task : t) : bool :=
  TaskBase.title_field (title task)
  && TaskBase.description_field (description task).
End Task.

(** The JSON object of a request body, restricted to the keys the model
    reads.  [None] is an omitted key. *)
Record Body : Type := mkBody {
  body_title : option string;
  body_description : option string;
  body_completed : option bool
}.

(** Parsing a body into [TaskCreate]: [title] is required, [description]
    defaults to [None] and [completed] to [False].  [None] is a validation
    error. *)
Definition parse_TaskCreate (b : Body) : option TaskCreate.t :=
  match body_title b with
  | None => None
  | Some ti =>
      if TaskBase.title_field ti && TaskBase.description_field (body_description b)
      then Some (TaskCreate.mk ti (body_description b)
                   (default false (body_completed b)))
      else None
  end.

(** ** In-memory storage *)

Record State : Type := mkState {
  tasks_db : list Task.t;
  task_id_counter : Z
}.

(** [tasks_db: List[dict] = []] and [task_id_counter = 1]. *)
Definition initial : State := mkState [] 1.

(** ** Handlers *)

Record HTTPException : Type := mkHTTPException {
  status_code : Z;
  detail : string
}.

Definition Handler (A : Type) : Type := State → (HTTPException + A) * State.

#[global] Instance Handler_ret : MRet Handler := λ A x s, (inr x, s).

#[global] Instance Handler_bind : MBind Handler := λ A B f m s,
  match m s with
  | (inl e, s') => (inl e, s')
  | (inr a, s') => f a s'
  end.

Definition raise {A} (e : HTTPException) : Handler A := λ s, (inl e, s).

Definition read {A} (f : State → A) : Handler A := λ s, (inr (f s), s).

Definition set_tasks_db (db : list Task.t) : Handler () :=
  λ s, (inr (), mkState db (task_id_counter s)).

Definition set_task_id_counter (c : Z) : Handler () :=
  λ s, (inr (), mkState (tasks_db s) c).

Definition HTTP_200_OK : Z := 200.
Definition HTTP_201_CREATED : Z := 201.
Definition HTTP_204_NO_CONTENT : Z := 204.
Definition HTTP_404_NOT_FOUND : Z := 404.
Definition HTTP_422_UNPROCESSABLE_ENTITY : Z := 422.
Definition HTTP_500_INTERNAL_SERVER_ERROR : Z := 500.

(** [f"Task with id {task_id} not found"] *)
Definition not_found_detail (task_id : Z) : string :=
  "Task with id " +:+ pretty task_id +:+ " not found".

(** The first dictionary of [tasks_db] whose ["id"] is [task_id], with its
    index: [next((task for task in tasks_db if task["id"] == task_id), None)]
    in [get_task] and [update_task], which use the dictionary, and
    [next((i for i, task in enumerate(tasks_db) if task["id"] == task_id),
    None)] in [delete_task], which uses the index.  A found dictionary is
    never empty, so [if not task] is the [None] case. *)
Definition find_task (task_id : Z) (db : list Task.t) : option (nat * Task.t) :=
  list_find (λ task, Task.id task = task_id) db.

Definition get_tasks : Handler (list Task.t) :=
  read tasks_db.

Definition get_task (task_id : Z) : Handler Task.t :=
  db ← read tasks_db;
  match find_task task_id db with
  | None => raise (mkHTTPException HTTP_404_NOT_FOUND (not_found_detail task_id))
  | Some (_, task) => mret task
  end.

Definition create_task (utcnow : string) (task : TaskCreate.t) : Handler Task.t :=
  c ← read task_id_counter;
  let new_task :=
    Task.mk c (TaskCreate.title task) (TaskCreate.description task)
      (TaskCreate.completed task) utcnow in
  db ← read tasks_db;
  set_tasks_db (db ++ [new_task]);;
  c' ← read task_id_counter;
  set_task_id_counter (c' + 1);;
  mret new_task.

Definition update_task (task_id : Z) (task_update : TaskCreate.t) : Handler Task.t :=
  db ← read tasks_db;
  match find_task task_id db with
  | None => raise (mkHTTPException HTTP_404_NOT_FOUND (not_found_detail task_id))
  | Some (i, task) =>
      let task' :=
        Task.mk (Task.id task) (TaskCreate.title task_update)
          (TaskCreate.description task_update)
          (TaskCreate.completed task_update) (Task.created_at task) in
      set_tasks_db (<[i := task']> db);;
      mret task'
  end.

Definition delete_task (task_id : Z) : Handler () :=
  db ← read tasks_db;
  match find_task task_id db with
  | None => raise (mkHTTPException HTTP_404_NOT_FOUND (not_found_detail task_id))
  | Some (task_index, _) =>
      set_tasks_db (delete task_index db);;
      mret ()
  end.


(** ** Routes *)

Inductive Request : Type :=
| GET_tasks
| GET_task (task_id : Z)
| POST_tasks (body : Body)
| PUT_task (task_id : Z) (body : Body)
| DELETE_task (task_id : Z).

Inductive Content : Type :=
| JSON_Task (task : Task.t)
| JSON_Tasks (tasks : list Task.t)
| JSON_detail (detail : string)
| Empty
| ValidationErrors
| InternalServerError.

Record Response : Type := mkResponse {
  status : Z;
  content : Content
}.

(** [response_model=Task] and [response_model=List[Task]]: the returned
    value is validated against the model before it is serialised. *)
Definition response_Task (task : Task.t) : option Content :=
  if Task.validate task then Some (JSON_Task task) else None.

Definition response_List_Task (tasks : list Task.t) : option Content :=
  if forallb Task.validate tasks then Some (JSON_Tasks tasks) else None.

Definition response_None (_ : ()) : option Content := Some Empty.

(** A route runs its handler and answers with the route's status code, with
    the status and detail of a raised [HTTPException], or with a server
    error when the returned value does not fit the response model. *)
Definition route {A} (code : Z) (response_model : A → option Content)
    (h : Handler A) (s : State) : Response * State :=
  match h s with
  | (inl e, s') => (mkResponse (status_code e) (JSON_detail (detail e)), s')
  | (inr a, s') =>
      match response_model a with
      | Some c => (mkResponse code c, s')
      | None => (mkResponse HTTP_500_INTERNAL_SERVER_ERROR InternalServerError, s')
      end
  end.

(** A handler with a [TaskCreate] parameter runs only on a body that
    parses. *)
Definition with_body (body : Body) (k : TaskCreate.t → State → Response * State)
    (s : State) : Response * State :=
  match parse_TaskCreate body with
  | None => (mkResponse HTTP_422_UNPROCESSABLE_ENTITY ValidationErrors, s)
  | Some task => k task s
  end.

Definition app (utcnow : string) (req : Request) : State → Response * State :=
  match req with
  | GET_tasks => route HTTP_200_OK response_List_Task get_tasks
  | GET_task task_id => route HTTP_200_OK response_Task (get_task task_id)
  | POST_tasks body =>
      with_body body (λ task,
        route HTTP_201_CREATED response_Task (create_task utcnow task))
  | PUT_task task_id body =>
      with_body body (λ task_update,
        route HTTP_200_OK response_Task (update_task task_id task_update))
  | DELETE_task task_id => route HTTP_204_NO_CONTENT response_None (delete_task task_id)
  end.

(** ** Request sequences *)

(** Requests are served one after the other, each with the clock reading
    current when it is served. *)
Fixpoint run (reqs : list (string * Request)) (s : State) : list Response * State :=
  match reqs with
  | [] => ([], s)
  | (utcnow, req) :: reqs' =>
      let '(resp, s') := app utcnow req s in
      let '(resps, s'') := run reqs' s' in
      (resp :: resps, s'')
  end.

Definition reachable (s : State) : Prop :=
  ∃ reqs, (run reqs initial).2 = s.

(** The id carried by the answer to a successful create. *)
Definition created_id (resp : Response) : option Z :=
  match content resp with
  | JSON_Task task =>
      if decide (status resp = HTTP_201_CREATED) then Some (Task.id task) else None
  | _ => None
  end.

Definition created_ids (resps : list Response) : list Z :=
  omap created_id resps.

Definition is_create (req : Request) : bool :=
  match req with
  | POST_tasks _ => true
  | _ => false
  end.

(** The two routes that only read the store. *)
Definition is_read (req : Request) : bool :=
  match req with
  | GET_tasks | GET_task _ => true
  | _ => false
  end.

(** The requests of a sequence that are not reads, and the answers a
    sequence got for them. *)
Definition writes (reqs : list (string * Request)) : list (string * Request) :=
  filter (λ r, is_read r.2 = false) reqs.

Fixpoint answers_to_writes (reqs : list (string * Request))
    (resps : list Response) : list Response :=
  match reqs, resps with
  | (_, req) :: reqs', resp :: resps' =>
      if is_read req then answers_to_writes reqs' resps'
      else resp :: answers_to_writes reqs' resps'
  | _, _ => []
  end.

(** How many answers of a sequence carry a given status code. *)
Definition count_status (code : Z) (resps : list Response) : nat :=
  length (filter (λ resp, status resp = code) resps).

(** ** The handlers in full: log records and spans *)

Inductive Level : Type := INFO | ERROR.

(** What a handler emits besides its result: the records of [logger.info]
    and [logger.error], and the start and the end of the span of a
    [with tracer.start_as_current_span(name)] block.  The end of a span
    carries the exception the block was left with, if any. *)
Inductive Event : Type :=
| Log (levelname : Level) (message : string)
| SpanStart (name : string)
| SpanEnd (name : string) (exc : option HTTPException).

(** A handler that also emits events, in the order of emission. *)
Definition Traced (A : Type) : Type :=
  State → (HTTPException + A) * State * list Event.

#[global] Instance Traced_ret : MRet Traced := λ A x s, (inr x, s, []).

#[global] Instance Traced_bind : MBind Traced := λ A B f m s,
  match m s with
  | (inl e, s', evs) => (inl e, s', evs)
  | (inr a, s', evs) =>
      let '(r, s'', evs') := f a s' in (r, s'', evs ++ evs')
  end.

Definition lift {A} (h : Handler A) : Traced A := λ s,
  let '(r, s') := h s in (r, s', []).

Definition logger_info (message : string) : Traced () := λ s,
  (inr (), s, [Log INFO message]).

Definition logger_error (message : string) : Traced () := λ s,
  (inr (), s, [Log ERROR message]).

(** The [with] block: the span starts before the block and ends when the
    block is left, by its end, by [return] or by an exception, which goes on
    to the caller. *)
Definition start_as_current_span {A} (name : string) (block : Traced A) : Traced A :=
  λ s,
    let '(r, s', evs) := block s in
    let exc := match r with inl e => Some e | inr _ => None end in
    (r, s', SpanStart name :: evs ++ [SpanEnd name exc]).

Module Full.

(** The dictionary [root] returns. *)
Record RootInfo : Type := mkRootInfo {
  message : string;
  docs : string;
  health : string;
  metrics : string
}.

(** The dictionary [health_check] returns. *)
Record HealthInfo : Type := mkHealthInfo {
  health_status : string;
  timestamp : string;
  service : string
}.

Definition root : Traced RootInfo :=
  logger_info "Root endpoint accessed";;
  mret (mkRootInfo "Welcome to Task Manager API" "/docs" "/health" "/metrics").

Definition health_check (utcnow : string) : Traced HealthInfo :=
  start_as_current_span "health_check" (
    logger_info "Health check performed";;
    mret (mkHealthInfo "healthy" utcnow "task-manager-api")).

Definition get_tasks : Traced (list Task.t) :=
  start_as_current_span "get_all_tasks" (
    db ← lift (read tasks_db);
    logger_info ("GET /tasks - Retrieved " +:+ pretty (length db) +:+ " tasks");;
    lift (read tasks_db)).

Definition get_task (task_id : Z) : Traced Task.t :=
  start_as_current_span "get_task_by_id" (
    logger_info ("GET /tasks/" +:+ pretty task_id);;
    db ← lift (read tasks_db);
    match find_task task_id db with
    | None =>
        logger_error ("Task " +:+ pretty task_id +:+ " not found");;
        lift (raise (mkHTTPException HTTP_404_NOT_FOUND (not_found_detail task_id)))
    | Some (_, task) => mret task
    end).

Definition create_task (utcnow : string) (task : TaskCreate.t) : Traced Task.t :=
  start_as_current_span "create_task" (
    c ← lift (read task_id_counter);
    let new_task :=
      Task.mk c (TaskCreate.title task) (TaskCreate.description task)
        (TaskCreate.completed task) utcnow in
    db ← lift (read tasks_db);
    lift (set_tasks_db (db ++ [new_task]));;
    c' ← lift (read task_id_counter);
    logger_info ("POST /tasks - Created task " +:+ pretty c' +:+ ": "
                 +:+ TaskCreate.title task);;
    c'' ← lift (read task_id_counter);
    lift (set_task_id_counter (c'' + 1));;
    mret new_task).

Definition update_task (task_id : Z) (task_update : TaskCreate.t) : Traced Task.t :=
  start_as_current_span "update_task" (
    logger_info ("PUT /tasks/" +:+ pretty task_id);;
    db ← lift (read tasks_db);
    match find_task task_id db with
    | None =>
        logger_error ("Task " +:+ pretty task_id +:+ " not found for update");;
        lift (raise (mkHTTPException HTTP_404_NOT_FOUND (not_found_detail task_id)))
    | Some (i, task) =>
        let task' :=
          Task.mk (Task.id task) (TaskCreate.title task_update)
            (TaskCreate.description task_update)
            (TaskCreate.completed task_update) (Task.created_at task) in
        lift (set_tasks_db (<[i := task']> db));;
        logger_info ("Task " +:+ pretty task_id +:+ " updated successfully");;
        mret task'
    end).

Definition delete_task (task_id : Z) : Traced () :=
  start_as_current_span "delete_task" (
    logger_info ("DELETE /tasks/" +:+ pretty task_id);;
    db ← lift (read tasks_db);
    match find_task task_id db with
    | None =>
        logger_error ("Task " +:+ pretty task_id +:+ " not found for deletion");;
        lift (raise (mkHTTPException HTTP_404_NOT_FOUND (not_found_detail task_id)))
    | Some (task_index, _) =>
        lift (set_tasks_db (delete task_index db));;
        logger_info ("Task " +:+ pretty task_id +:+ " deleted successfully");;
        mret ()
    end).

(** A route on a handler in full: the answer is the route's answer to the
    handler's outcome, and the events are the handler's. *)
Definition route_events {A} (code : Z) (response_model : A → option Content)
    (h : Traced A) (s : State) : Response * State * list Event :=
  let '(r, s', evs) := h s in
  (route code response_model (λ _, (r, s')) s, evs).

(** The task routes; a body that does not parse is answered before the
    handler is entered, so that nothing is emitted. *)
Definition app (utcnow : string) (req : Request) (s : State)
    : Response * State * list Event :=
  match req with
  | GET_tasks => route_events HTTP_200_OK response_List_Task get_tasks s
  | GET_task task_id => route_events HTTP_200_OK response_Task (get_task task_id) s
  | POST_tasks body =>
      match parse_TaskCreate body with
      | None => (mkResponse HTTP_422_UNPROCESSABLE_ENTITY ValidationErrors, s, [])
      | Some task =>
          route_events HTTP_201_CREATED response_Task (create_task utcnow task) s
      end
  | PUT_task task_id body =>
      match parse_TaskCreate body with
      | None => (mkResponse HTTP_422_UNPROCESSABLE_ENTITY ValidationErrors, s, [])
      | Some task_update =>
          route_events HTTP_200_OK response_Task (update_task task_id task_update) s
      end
  | DELETE_task task_id =>
      route_events HTTP_204_NO_CONTENT response_None (delete_task task_id) s
  end.

End Full.

(** ** The whole service *)

Inductive Endpoint : Type :=
| GET_root
| GET_health
| Tasks (req : Request).

Inductive Answer : Type :=
| RootAnswer (code : Z) (info : Full.RootInfo)
| HealthAnswer (code : Z) (info : Full.HealthInfo)
| TasksAnswer (resp : Response).

(** The answer to a raised [HTTPException]. *)
Definition exception_response (e : HTTPException) : Response :=
  mkResponse (status_code e) (JSON_detail (detail e)).

(** [root] and [health_check] have no response model; they are answered 200
    with the dictionary they return. *)
Definition serve (utcnow : string) (e : Endpoint) (s : State)
    : Answer * State * list Event :=
  match e with
  | GET_root =>
      let '(r, s', evs) := Full.root s in
      (match r with
       | inr info => RootAnswer HTTP_200_OK info
       | inl exc => TasksAnswer (exception_response exc)
       end, s', evs)
  | GET_health =>
      let '(r, s', evs) := Full.health_check utcnow s in
      (match r with
       | inr info => HealthAnswer HTTP_200_OK info
       | inl exc => TasksAnswer (exception_response exc)
       end, s', evs)
  | Tasks req =>
      let '(resp, s', evs) := Full.app utcnow req s in
      (TasksAnswer resp, s', evs)
  end.

Fixpoint serve_all (es : list (string * Endpoint)) (s : State)
    : list Answer * State * list Event :=
  match es with
  | [] => ([], s, [])
  | (utcnow, e) :: es' =>
      let '(a, s', evs) := serve utcnow e s in
      let '(answers, s'', evs') := serve_all es' s' in
      (a :: answers, s'', evs ++ evs')
  end.

(** The task requests of a sequence and the answers given to them. *)
Definition task_requests (es : list (string * Endpoint)) : list (string * Request) :=
  omap (λ e, match e.2 with Tasks req => Some (e.1, req) | _ => None end) es.

Definition task_answers (es : list (string * Endpoint)) (answers : list Answer)
    : list Response :=
  omap (λ ea, match ea with
              | ((_, Tasks _), TasksAnswer resp) => Some resp
              | _ => None
              end) (zip es answers).

(** ** The test suite (tests/test_api.py) *)

(** JSON values, as [response.json()] gives them. *)
#[warnings="-register-all"] Inductive JSON : Type :=
| JNull
| JBool (b : bool)
| JInt (n : Z)
| JStr (s : string)
| JList (items : list JSON)
| JObj (fields : list (string * JSON)).

(** A task serialised by the [Task] model. *)
Definition Task_json (task : Task.t) : JSON :=
  JObj [("title", JStr (Task.title task));
        ("description", from_option JStr JNull (Task.description task));
        ("completed", JBool (Task.completed task));
        ("id", JInt (Task.id task));
        ("created_at", JStr (Task.created_at task))].

Definition answer_status_code (a : Answer) : Z :=
  match a with
  | RootAnswer code _ | HealthAnswer code _ => code
  | TasksAnswer resp => status resp
  end.

(** [response.json()].  The bodies of the 204, 422 and 500 answers are not
    modelled: reading them fails. *)
Definition answer_json (a : Answer) : option JSON :=
  match a with
  | RootAnswer _ info =>
      Some (JObj [("message", JStr (Full.message info));
                  ("docs", JStr (Full.docs info));
                  ("health", JStr (Full.health info));
                  ("metrics", JStr (Full.metrics info))])
  | HealthAnswer _ info =>
      Some (JObj [("status", JStr (Full.health_status info));
                  ("timestamp", JStr (Full.timestamp info));
                  ("service", JStr (Full.service info))])
  | TasksAnswer resp =>
      match content resp with
      | JSON_Task task => Some (Task_json task)
      | JSON_Tasks tasks => Some (JList (Task_json <$> tasks))
      | JSON_detail detail => Some (JObj [("detail", JStr detail)])
      | Empty | ValidationErrors | InternalServerError => None
      end
  end.

(** [j[key]] and [key in j] on a dictionary. *)
Fixpoint lookup_key (key : string) (fields : list (string * JSON)) : option JSON :=
  match fields with
  | [] => None
  | (k, v) :: fields' => if String.eqb k key then Some v else lookup_key key fields'
  end.

Definition getitem (key : string) (j : JSON) : option JSON :=
  match j with
  | JObj fields => lookup_key key fields
  | _ => None
  end.

Definition has_key (key : string) (j : JSON) : bool :=
  match getitem key j with Some _ => true | None => false end.

(** [j == literal] for the literals the tests use. *)
Definition eq_str (j : JSON) (s : string) : bool :=
  match j with JStr s' => String.eqb s' s | _ => false end.

Definition eq_int (j : JSON) (n : Z) : bool :=
  match j with JInt n' => Z.eqb n' n | _ => false end.

Definition eq_bool (j : JSON) (b : bool) : bool :=
  match j with JBool b' => Bool.eqb b' b | _ => false end.

Definition is_None (j : JSON) : bool :=
  match j with JNull => true | _ => false end.

Definition eq_empty_list (j : JSON) : bool :=
  match j with JList [] => true | _ => false end.

(** [str.lower()] on the letters A to Z, and [sub in s]. *)
Definition lower_char (c : Ascii.ascii) : Ascii.ascii :=
  let n := Ascii.nat_of_ascii c in
  if Nat.leb 65 n && Nat.leb n 90 then Ascii.ascii_of_nat (n + 32) else c.

Fixpoint lower (s : string) : string :=
  match s with
  | EmptyString => EmptyString
  | String c s' => String (lower_char c) (lower s')
  end.

Definition contains (sub s : string) : bool :=
  match String.index 0 sub s with Some _ => true | None => false end.

(** A test: requests sent to the service one after the other, with values
    read from the answers and assertions on them.  [None] is a failed
    assertion or a raised error, which ends the test; the store keeps what
    the requests sent so far have made of it. *)
Definition Test (A : Type) : Type := State → option A * State.

#[global] Instance Test_ret : MRet Test := λ A x s, (Some x, s).

#[global] Instance Test_bind : MBind Test := λ A B f m s,
  match m s with
  | (None, s') => (None, s')
  | (Some a, s') => f a s'
  end.

Definition client (utcnow : string) (e : Endpoint) : Test Answer := λ s,
  (Some (serve utcnow e s).1.1, (serve utcnow e s).1.2).

Definition assert (b : bool) : Test () := λ s,
  (if b then Some () else None, s).

Definition value {A} (o : option A) : Test A := λ s, (o, s).

Fixpoint for_each {A} (items : list A) (body : A → Test ()) : Test () :=
  match items with
  | [] => mret ()
  | item :: items' => body item;; for_each items' body
  end.

Module Tests.

(** Every test takes the clock reading of the moment it runs; at most one
    request of a test reads the clock. *)

Definition test_root (utcnow : string) : Test () :=
  response ← client utcnow GET_root;
  assert (answer_status_code response =? 200);;
  j ← value (answer_json response);
  assert (has_key "message" j);;
  message ← value (getitem "message" j);
  assert (eq_str message "Welcome to Task Manager API").

Definition test_health_check (utcnow : string) : Test () :=
  response ← client utcnow GET_health;
  assert (answer_status_code response =? 200);;
  j ← value (answer_json response);
  status ← value (getitem "status" j);
  assert (eq_str status "healthy");;
  assert (has_key "timestamp" j).

Definition test_get_empty_tasks (utcnow : string) : Test () :=
  response ← client utcnow (Tasks GET_tasks);
  j ← value (answer_json response);
  tasks ← value (match j with JList items => Some items | _ => None end);
  for_each tasks (λ task,
    id ← value (getitem "id" task);
    task_id ← value (match id with JInt n => Some n | _ => None end);
    client utcnow (Tasks (DELETE_task task_id));;
    mret ());;
  response ← client utcnow (Tasks GET_tasks);
  assert (answer_status_code response =? 200);;
  j ← value (answer_json response);
  assert (eq_empty_list j).

Definition test_create_task (utcnow : string) : Test () :=
  let task_data :=
    mkBody (Some "Test Task") (Some "This is a test task") (Some false) in
  response ← client utcnow (Tasks (POST_tasks task_data));
  assert (answer_status_code response =? 201);;
  j ← value (answer_json response);
  title ← value (getitem "title" j);
  assert (eq_str title "Test Task");;
  description ← value (getitem "description" j);
  assert (eq_str description "This is a test task");;
  assert (has_key "id" j);;
  assert (has_key "created_at" j).

Definition test_create_task_without_description (utcnow : string) : Test () :=
  let task_data := mkBody (Some "Task without description") None (Some false) in
  response ← client utcnow (Tasks (POST_tasks task_data));
  assert (answer_status_code response =? 201);;
  j ← value (answer_json response);
  title ← value (getitem "title" j);
  assert (eq_str title "Task without description");;
  description ← value (getitem "description" j);
  assert (is_None description).

Definition test_create_task_validation_error (utcnow : string) : Test () :=
  let task_data := mkBody (Some "") None (Some false) in
  response ← client utcnow (Tasks (POST_tasks task_data));
  assert (answer_status_code response =? 422).

Definition test_get_task_by_id (utcnow : string) : Test () :=
  let task_data :=
    mkBody (Some "Get Task Test") (Some "Task to test GET by ID") (Some false) in
  create_response ← client utcnow (Tasks (POST_tasks task_data));
  created ← value (answer_json create_response);
  id ← value (getitem "id" created);
  task_id ← value (match id with JInt n => Some n | _ => None end);
  response ← client utcnow (Tasks (GET_task task_id));
  assert (answer_status_code response =? 200);;
  j ← value (answer_json response);
  id' ← value (getitem "id" j);
  assert (eq_int id' task_id);;
  title ← value (getitem "title" j);
  assert (eq_str title "Get Task Test").

Definition test_get_nonexistent_task (utcnow : string) : Test () :=
  response ← client utcnow (Tasks (GET_task 99999));
  assert (answer_status_code response =? 404);;
  j ← value (answer_json response);
  detail ← value (getitem "detail" j);
  detail ← value (match detail with JStr s => Some s | _ => None end);
  assert (contains "not found" (lower detail)).

Definition test_update_task (utcnow : string) : Test () :=
  let task_data :=
    mkBody (Some "Original Title") (Some "Original description") (Some false) in
  create_response ← client utcnow (Tasks (POST_tasks task_data));
  created ← value (answer_json create_response);
  id ← value (getitem "id" created);
  task_id ← value (match id with JInt n => Some n | _ => None end);
  let updated_data :=
    mkBody (Some "Updated Title") (Some "Updated description") (Some true) in
  response ← client utcnow (Tasks (PUT_task task_id updated_data));
  assert (answer_status_code response =? 200);;
  j ← value (answer_json response);
  title ← value (getitem "title" j);
  assert (eq_str title "Updated Title");;
  completed ← value (getitem "completed" j);
  assert (eq_bool completed true).

Definition test_update_nonexistent_task (utcnow : string) : Test () :=
  let task_data :=
    mkBody (Some "Update Test") (Some "This won't work") (Some false) in
  response ← client utcnow (Tasks (PUT_task 99999 task_data));
  assert (answer_status_code response =? 404).

Definition test_delete_task (utcnow : string) : Test () :=
  let task_data :=
    mkBody (Some "Task to Delete") (Some "Will be deleted") (Some false) in
  create_response ← client utcnow (Tasks (POST_tasks task_data));
  created ← value (answer_json create_response);
  id ← value (getitem "id" created);
  task_id ← value (match id with JInt n => Some n | _ => None end);
  response ← client utcnow (Tasks (DELETE_task task_id));
  assert (answer_status_code response =? 204);;
  get_response ← client utcnow (Tasks (GET_task task_id));
  assert (answer_status_code get_response =? 404).

Definition test_delete_nonexistent_task (utcnow : string) : Test () :=
  response ← client utcnow (Tasks (DELETE_task 99999));
  assert (answer_status_code response =? 404).

End Tests.

(** The tests of the file in their order, without [test_metrics_endpoint],
    whose route is not part of [app.py]. *)
Definition test_suite : list (string → Test ()) :=
  [Tests.test_root; Tests.test_health_check; Tests.test_get_empty_tasks;
   Tests.test_create_task; Tests.test_create_task_without_description;
   Tests.test_create_task_validation_error; Tests.test_get_task_by_id;
   Tests.test_get_nonexistent_task; Tests.test_update_task;
   Tests.test_update_nonexistent_task; Tests.test_delete_task;
   Tests.test_delete_nonexistent_task].

(** A test session: the tests run one after the other on the same store,
    each at its clock reading, whether or not the ones before passed. *)
Fixpoint run_tests (tests : list (string → Test ())) (clock : list string)
    (s : State) : list bool * State :=
  match tests, clock with
  | test :: tests', utcnow :: clock' =>
      let '(r, s') := test utcnow s in
      let '(rs, s'') := run_tests tests' clock' s' in
      (bool_decide (is_Some r) :: rs, s'')
  | _, _ => ([], s)
  end.

Definition is_log (ev : Event) : bool :=
  match ev with
  | Log _ _ => true
  | _ => false
  end.

Definition is_error_log (ev : Event) : bool :=
  match ev with
  | Log ERROR _ => true
  | _ => false
  end.

(** * Properties *)

(** ** What each route computes *)

Section routes.
Context (utcnow : string) (s : State).

Lemma parse_TaskCreate_Some body task :
  parse_TaskCreate body = Some task →
  body_title body = Some (TaskCreate.title task)
  ∧ TaskCreate.description task = body_description body
  ∧ TaskCreate.completed task = default false (body_completed body)
  ∧ TaskBase.title_field (TaskCreate.title task) = true
  ∧ TaskBase.description_field (TaskCreate.description task) = true.
Proof.
  unfold parse_TaskCreate. destruct (body_title body) as [ti|]; [|done].
  destruct (TaskBase.title_field ti) eqn:Hti; [|done].
  destruct (TaskBase.description_field _) eqn:Hd; [|done].
  intros [= <-]. done.
Qed.

Lemma app_GET_tasks :
  app utcnow GET_tasks s =
    (match response_List_Task (tasks_db s) with
     | Some c => mkResponse HTTP_200_OK c
     | None => mkResponse HTTP_500_INTERNAL_SERVER_ERROR InternalServerError
     end, s).
Proof. cbn. unfold route, get_tasks, read. by destruct (response_List_Task _). Qed.

Lemma app_GET_task task_id :
  app utcnow (GET_task task_id) s =
    match find_task task_id (tasks_db s) with
    | None => (mkResponse HTTP_404_NOT_FOUND (JSON_detail (not_found_detail task_id)), s)
    | Some (_, task) =>
        (match response_Task task with
         | Some c => mkResponse HTTP_200_OK c
         | None => mkResponse HTTP_500_INTERNAL_SERVER_ERROR InternalServerError
         end, s)
    end.
Proof.
  cbn. unfold route, get_task, read, mbind, Handler_bind.
  destruct (find_task task_id (tasks_db s)) as [[i task]|]; [|done].
  cbn. by destruct (response_Task task).
Qed.

Lemma app_invalid_body req body :
  req = POST_tasks body ∨ (∃ task_id, req = PUT_task task_id body) →
  parse_TaskCreate body = None →
  app utcnow req s = (mkResponse HTTP_422_UNPROCESSABLE_ENTITY ValidationErrors, s).
Proof. intros [->|[task_id ->]] Hb; cbn; unfold with_body; by rewrite Hb. Qed.

Lemma app_POST_tasks body task :
  parse_TaskCreate body = Some task →
  let new_task :=
    Task.mk (task_id_counter s) (TaskCreate.title task)
      (TaskCreate.description task) (TaskCreate.completed task) utcnow in
  app utcnow (POST_tasks body) s =
    (mkResponse HTTP_201_CREATED (JSON_Task new_task),
     mkState (tasks_db s ++ [new_task]) (task_id_counter s + 1)).
Proof.
  intros Hb new_task. destruct (parse_TaskCreate_Some _ _ Hb) as (_&_&_&Ht&Hd).
  cbn. unfold with_body. rewrite Hb.
  unfold route, create_task, read, set_tasks_db, set_task_id_counter,
    mbind, Handler_bind, mret, Handler_ret. cbn.
  unfold response_Task, Task.validate. cbn. by rewrite Ht, Hd.
Qed.

Lemma app_PUT_task task_id body task_update :
  parse_TaskCreate body = Some task_update →
  app utcnow (PUT_task task_id body) s =
    match find_task task_id (tasks_db s) with
    | None => (mkResponse HTTP_404_NOT_FOUND (JSON_detail (not_found_detail task_id)), s)
    | Some (i, task) =>
        let task' :=
          Task.mk (Task.id task) (TaskCreate.title task_update)
            (TaskCreate.description task_update)
            (TaskCreate.completed task_update) (Task.created_at task) in
        (mkResponse HTTP_200_OK (JSON_Task task'),
         mkState (<[i := task']> (tasks_db s)) (task_id_counter s))
    end.
Proof.
  intros Hb. destruct (parse_TaskCreate_Some _ _ Hb) as (_&_&_&Ht&Hd).
  cbn. unfold with_body. rewrite Hb.
  unfold route, update_task, read, set_tasks_db, mbind, Handler_bind. cbn.
  destruct (find_task task_id (tasks_db s)) as [[i task]|]; [|done].
  cbn. unfold response_Task, Task.validate. cbn. by rewrite Ht, Hd.
Qed.

Lemma app_DELETE_task task_id :
  app utcnow (DELETE_task task_id) s =
    match find_task task_id (tasks_db s) with
    | None => (mkResponse HTTP_404_NOT_FOUND (JSON_detail (not_found_detail task_id)), s)
    | Some (task_index, _) =>
        (mkResponse HTTP_204_NO_CONTENT Empty,
         mkState (delete task_index (tasks_db s)) (task_id_counter s))
    end.
Proof.
  cbn. unfold route, delete_task, read, set_tasks_db, mbind, Handler_bind. cbn.
  by destruct (find_task task_id (tasks_db s)) as [[i task]|].
Qed.
End routes.

(** ** Looking a task up *)

Lemma find_task_Some task_id db i task :
  find_task task_id db = Some (i, task) ↔
    db !! i = Some task ∧ Task.id task = task_id
    ∧ ∀ j task', db !! j = Some task' → (j < i)%nat → Task.id task' ≠ task_id.
Proof. unfold find_task. by rewrite list_find_Some. Qed.

Lemma find_task_None task_id db :
  find_task task_id db = None ↔ task_id ∉ (Task.id <$> db).
Proof.
  unfold find_task. rewrite list_find_None, Forall_forall, list_elem_of_fmap.
  split.
  - intros Hall (task & Heq & Hin). by apply (Hall task).
  - intros Hnot task Hin Heq. apply Hnot. by exists task.
Qed.

Lemma find_task_lookup_id task_id db i task :
  find_task task_id db = Some (i, task) →
  (Task.id <$> db) !! i = Some task_id.
Proof.
  intros (Hi & <- & _)%find_task_Some. by rewrite list_lookup_fmap, Hi.
Qed.

(** ** Strictly increasing lists of ids *)

Lemma StronglySorted_sublist {A} (R : relation A) (l1 l2 : list A) :
  l1 `sublist_of` l2 → StronglySorted R l2 → StronglySorted R l1.
Proof.
  induction 1 as [|x l1 l2 Hsub IH|x l1 l2 Hsub IH]; [done|..].
  - rewrite !StronglySorted_cons. intros [Hall Hs]. split; [|by apply IH].
    apply Forall_forall. intros y Hy. eapply Forall_forall in Hall; [done|].
    by eapply elem_of_sublist.
  - rewrite StronglySorted_cons. intros [_ Hs]. by apply IH.
Qed.

Lemma StronglySorted_lt_NoDup (l : list Z) :
  StronglySorted Z.lt l → NoDup l.
Proof.
  induction 1 as [|x l Hs IH Hall]; constructor; [|done].
  intros Hx. eapply Forall_forall in Hall; [|done]. lia.
Qed.

(** In a list without repetition, the entry removed is gone. *)
Lemma NoDup_delete_lookup {A} (l : list A) i x :
  NoDup l → l !! i = Some x → x ∉ delete i l.
Proof.
  intros Hnd Hi (j & Hj)%list_elem_of_lookup.
  destruct (decide (j < i)%nat).
  - rewrite list_lookup_delete_lt in Hj by done.
    pose proof (NoDup_lookup _ _ _ _ Hnd Hi Hj). lia.
  - rewrite list_lookup_delete_ge in Hj by lia.
    pose proof (NoDup_lookup _ _ _ _ Hnd Hi Hj). lia.
Qed.

(** ** The store invariant *)

Record store_ok (s : State) : Prop := mk_store_ok {
  ids_increasing : StronglySorted Z.lt (Task.id <$> tasks_db s);
  ids_below_counter :
    Forall (λ task, 1 ≤ Task.id task < task_id_counter s) (tasks_db s);
  counter_positive : 1 ≤ task_id_counter s;
  tasks_valid : Forall (λ task, Task.validate task = true) (tasks_db s)
}.

Lemma store_ok_initial : store_ok initial.
Proof. split; cbn; by try constructor. Qed.

Lemma store_ok_NoDup s : store_ok s → NoDup (Task.id <$> tasks_db s).
Proof. intros [Hs _ _ _]. by apply StronglySorted_lt_NoDup. Qed.

Lemma store_ok_response_List_Task_ok db :
  Forall (λ task, Task.validate task = true) db →
  forallb Task.validate db = true.
Proof. induction 1 as [|task db Hv _ IH]; cbn; [done|]. by rewrite Hv, IH. Qed.

Lemma app_store_ok utcnow req s :
  store_ok s → store_ok (app utcnow req s).2.
Proof.
  intros Hok. pose proof Hok as [Hs Hb Hc Hv].
  destruct req as [|task_id|body|task_id body|task_id].
  - by rewrite app_GET_tasks.
  - rewrite app_GET_task. by destruct (find_task _ _) as [[??]|].
  - destruct (parse_TaskCreate body) as [task|] eqn:Hbody.
    + rewrite (app_POST_tasks _ _ _ _ Hbody).
      destruct (parse_TaskCreate_Some _ _ Hbody) as (_&_&_&Ht&Hd).
      split; cbn.
      * rewrite fmap_app. apply StronglySorted_app. split_and!; [|done|].
        -- intros x1 x2 (task1 & -> & Hin)%list_elem_of_fmap Hx2.
           apply list_elem_of_singleton in Hx2 as ->.
           eapply Forall_forall in Hb; [|done]. cbn. lia.
        -- repeat constructor.
      * apply Forall_app. split.
        -- eapply Forall_impl; [exact Hb|]. cbn. intros task1 ?. lia.
        -- repeat constructor; cbn; lia.
      * lia.
      * apply Forall_app. split; [done|]. repeat constructor.
        unfold Task.validate. cbn. by rewrite Ht, Hd.
    + rewrite (app_invalid_body _ _ _ body); eauto.
  - destruct (parse_TaskCreate body) as [task_update|] eqn:Hbody.
    + rewrite (app_PUT_task _ _ _ _ _ Hbody).
      destruct (parse_TaskCreate_Some _ _ Hbody) as (_&_&_&Ht&Hd).
      destruct (find_task _ _) as [[i task]|] eqn:Hfind; [|done].
      pose proof Hfind as (Hi & Hid & _)%find_task_Some.
      split; cbn.
      * rewrite list_fmap_insert. cbn. rewrite list_insert_id; [done|].
        by rewrite list_lookup_fmap, Hi.
      * apply Forall_insert; [done|]. cbn.
        by eapply Forall_forall in Hb; [|by eapply list_elem_of_lookup_2].
      * done.
      * apply Forall_insert; [done|]. unfold Task.validate. cbn.
        by rewrite Ht, Hd.
    + rewrite (app_invalid_body _ _ _ body); eauto.
  - rewrite app_DELETE_task.
    destruct (find_task _ _) as [[i task]|] eqn:Hfind; [|done].
    split; cbn.
    * rewrite list_fmap_delete.
      eapply StronglySorted_sublist; [apply sublist_delete|done].
    * by apply Forall_delete.
    * done.
    * by apply Forall_delete.
Qed.

Lemma run_cons utcnow req reqs s :
  run ((utcnow, req) :: reqs) s =
    ((app utcnow req s).1 :: (run reqs (app utcnow req s).2).1,
     (run reqs (app utcnow req s).2).2).
Proof. cbn. destruct (app utcnow req s), (run reqs _). done. Qed.

Lemma run_app reqs1 reqs2 s :
  run (reqs1 ++ reqs2) s =
    ((run reqs1 s).1 ++ (run reqs2 (run reqs1 s).2).1,
     (run reqs2 (run reqs1 s).2).2).
Proof.
  revert s. induction reqs1 as [|[utcnow req] reqs1 IH]; intros s.
  - cbn. by destruct (run reqs2 s).
  - rewrite <-app_comm_cons, !run_cons, IH. done.
Qed.

Lemma run_store_ok reqs s : store_ok s → store_ok (run reqs s).2.
Proof.
  revert s. induction reqs as [|[utcnow req] reqs IH]; intros s Hok; [done|].
  rewrite run_cons. cbn. by apply IH, app_store_ok.
Qed.

Lemma reachable_store_ok s : reachable s → store_ok s.
Proof. intros [reqs <-]. apply run_store_ok, store_ok_initial. Qed.

Lemma reachable_app utcnow req s : reachable s → reachable (app utcnow req s).2.
Proof.
  intros [reqs <-]. exists (reqs ++ [(utcnow, req)]).
  rewrite run_app, run_cons. done.
Qed.

(** ** The counter and the ids handed out *)

Lemma app_counter utcnow req s :
  (is_create req = true
   ∧ created_id (app utcnow req s).1 = Some (task_id_counter s)
   ∧ task_id_counter (app utcnow req s).2 = task_id_counter s + 1)
  ∨ (created_id (app utcnow req s).1 = None
     ∧ task_id_counter (app utcnow req s).2 = task_id_counter s).
Proof.
  destruct req as [|task_id|body|task_id body|task_id].
  - right. rewrite app_GET_tasks. unfold response_List_Task.
    by destruct (forallb _ _).
  - right. rewrite app_GET_task. destruct (find_task _ _) as [[i task]|]; [|done].
    unfold response_Task. by destruct (Task.validate task).
  - destruct (parse_TaskCreate body) as [task|] eqn:Hbody.
    + left. by rewrite (app_POST_tasks _ _ _ _ Hbody).
    + right. rewrite (app_invalid_body _ _ _ body); eauto.
  - right. destruct (parse_TaskCreate body) as [task_update|] eqn:Hbody.
    + rewrite (app_PUT_task _ _ _ _ _ Hbody).
      by destruct (find_task _ _) as [[i task]|].
    + rewrite (app_invalid_body _ _ _ body); eauto.
  - right. rewrite app_DELETE_task. by destruct (find_task _ _) as [[i task]|].
Qed.

Lemma created_ids_cons resp resps :
  created_ids (resp :: resps) =
    match created_id resp with
    | Some i => i :: created_ids resps
    | None => created_ids resps
    end.
Proof. done. Qed.

Lemma run_created_ids reqs s :
  created_ids (run reqs s).1 =
    seqZ (task_id_counter s) (Z.of_nat (length (created_ids (run reqs s).1)))
  ∧ task_id_counter (run reqs s).2 =
      task_id_counter s + Z.of_nat (length (created_ids (run reqs s).1)).
Proof.
  revert s. induction reqs as [|[utcnow req] reqs IH]; intros s.
  - cbn. split; [done|lia].
  - rewrite run_cons. cbn [fst snd]. rewrite created_ids_cons.
    destruct (IH (app utcnow req s).2) as [IHids IHc].
    destruct (app_counter utcnow req s) as [(_ & -> & Hc)|[-> Hc]].
    + rewrite Hc in IHids, IHc. cbn [length]. split; [|lia].
      rewrite seqZ_cons by lia. f_equal.
      rewrite IHids at 1. f_equal; lia.
    + rewrite Hc in IHids, IHc. done.
Qed.

Lemma StronglySorted_seqZ m n : StronglySorted Z.lt (seqZ m n).
Proof.
  destruct (decide (n ≤ 0)) as [Hn|Hn]; [rewrite seqZ_nil by done; constructor|].
  rewrite <-(Z2Nat.id n) by lia. generalize (Z.to_nat n) as k. clear n Hn.
  induction k as [|k IH]; [constructor|].
  rewrite seqZ_S. apply StronglySorted_app. split_and!; [|done|repeat constructor].
  intros x1 x2 Hx1%elem_of_seqZ Hx2%list_elem_of_singleton. lia.
Qed.

(** ** Lookups after a change of the list *)

Lemma find_task_unique db i task :
  NoDup (Task.id <$> db) → db !! i = Some task →
  find_task (Task.id task) db = Some (i, task).
Proof.
  intros Hnd Hi. apply find_task_Some. split_and!; [done..|].
  intros j task' Hj Hlt Heq.
  assert (j = i); [|lia].
  eapply (NoDup_lookup _ _ _ _ Hnd); rewrite list_lookup_fmap.
  - by rewrite Hj.
  - by rewrite Hi, Heq.
Qed.

Lemma find_task_append_new db new :
  Task.id new ∉ (Task.id <$> db) →
  find_task (Task.id new) (db ++ [new]) = Some (length db, new).
Proof.
  intros Hnew%find_task_None. unfold find_task in *.
  rewrite list_find_app_r by done. cbn. by rewrite decide_True.
Qed.

Lemma find_task_insert_same task_id db i old new :
  find_task task_id db = Some (i, old) → Task.id new = task_id →
  find_task task_id (<[i := new]> db) = Some (i, new).
Proof.
  intros (Hi & Hid & Hfirst)%find_task_Some Hnew.
  apply find_task_Some. split_and!; [|done|].
  - apply list_lookup_insert_eq. by eapply lookup_lt_Some.
  - intros j task' Hj Hlt. rewrite list_lookup_insert_ne in Hj by lia. eauto.
Qed.

(** Only a create adds an id to the store. *)
Lemma app_ids_no_create utcnow req s :
  is_create req = false →
  (Task.id <$> tasks_db (app utcnow req s).2) `sublist_of` (Task.id <$> tasks_db s).
Proof.
  destruct req as [|task_id|body|task_id body|task_id]; [| |done| |]; intros _.
  - by rewrite app_GET_tasks.
  - rewrite app_GET_task. by destruct (find_task _ _) as [[??]|].
  - destruct (parse_TaskCreate body) as [task_update|] eqn:Hbody.
    + rewrite (app_PUT_task _ _ _ _ _ Hbody).
      destruct (find_task _ _) as [[i task]|] eqn:Hfind; [|done].
      cbn. rewrite list_fmap_insert. cbn.
      rewrite list_insert_id; [done|].
      apply find_task_Some in Hfind as (Hi & _). by rewrite list_lookup_fmap, Hi.
    + rewrite (app_invalid_body _ _ _ body); eauto.
  - rewrite app_DELETE_task. destruct (find_task _ _) as [[i task]|]; [|done].
    cbn. rewrite list_fmap_delete. apply sublist_delete.
Qed.

Lemma run_ids_no_create reqs s :
  Forall (λ r, is_create r.2 = false) reqs →
  (Task.id <$> tasks_db (run reqs s).2) `sublist_of` (Task.id <$> tasks_db s).
Proof.
  intros Hall. revert s.
  induction Hall as [|[utcnow req] reqs Hreq Hall IH]; intros s; [done|].
  rewrite run_cons. cbn [snd]. etrans; [apply IH|]. by apply app_ids_no_create.
Qed.

(** An id below the counter that is not in the store never comes back,
    whatever requests follow. *)
Lemma app_absent_below_counter utcnow req s task_id :
  task_id ∉ (Task.id <$> tasks_db s) → task_id < task_id_counter s →
  (task_id ∉ Task.id <$> tasks_db (app utcnow req s).2)
  ∧ task_id < task_id_counter (app utcnow req s).2.
Proof.
  intros Habs Hlt. split.
  - destruct (is_create req) eqn:Hreq.
    + destruct req as [| |body| |]; try done.
      destruct (parse_TaskCreate body) as [task|] eqn:Hbody.
      * rewrite (app_POST_tasks _ _ _ _ Hbody). cbn. rewrite fmap_app. cbn.
        rewrite elem_of_app, list_elem_of_singleton. intros [?| ->]; [done|lia].
      * rewrite (app_invalid_body _ _ _ body); eauto.
    + intros Hin. apply Habs. eapply elem_of_sublist; [done|].
      by apply app_ids_no_create.
  - destruct (app_counter utcnow req s) as [(_ & _ & ->)|[_ ->]]; lia.
Qed.

Lemma run_absent_below_counter reqs s task_id :
  task_id ∉ (Task.id <$> tasks_db s) → task_id < task_id_counter s →
  task_id ∉ (Task.id <$> tasks_db (run reqs s).2).
Proof.
  revert s. induction reqs as [|[utcnow req] reqs IH]; intros s Habs Hlt; [done|].
  rewrite run_cons. cbn [snd].
  destruct (app_absent_below_counter utcnow req s task_id) as [??]; [done..|].
  by apply IH.
Qed.

(** What a successful delete leaves behind, in a state with distinct ids. *)
Lemma app_DELETE_task_204 utcnow task_id s :
  store_ok s →
  status (app utcnow (DELETE_task task_id) s).1 = HTTP_204_NO_CONTENT →
  (task_id ∉ Task.id <$> tasks_db (app utcnow (DELETE_task task_id) s).2)
  ∧ task_id < task_id_counter (app utcnow (DELETE_task task_id) s).2.
Proof.
  intros Hok. rewrite app_DELETE_task.
  destruct (find_task _ _) as [[i task]|] eqn:Hfind; [|done]. intros _. cbn.
  split.
  - rewrite list_fmap_delete. apply NoDup_delete_lookup.
    + by apply store_ok_NoDup.
    + by eapply find_task_lookup_id.
  - apply find_task_Some in Hfind as (Hi & <- & _).
    destruct Hok as [_ Hb _ _]. eapply Forall_forall in Hb; [|by eapply list_elem_of_lookup_2].
    cbn in Hb. lia.
Qed.

(** * Properties of the specification *)

(** C1.  Whatever requests are served from the empty store, the ids handed
    out by the successive creates are 1, 2, 3, ... in this order: they are
    strictly increasing from 1 and none is handed out twice, whether or not
    tasks were deleted in between; and the tasks in the resulting store have
    pairwise distinct ids. *)
Theorem C1_ids_increasing_never_reused (reqs : list (string * Request)) :
  let ids := created_ids (run reqs initial).1 in
  ids = seqZ 1 (Z.of_nat (length ids))
  ∧ StronglySorted Z.lt ids
  ∧ NoDup ids
  ∧ NoDup (Task.id <$> tasks_db (run reqs initial).2).
Proof.
  intros ids. destruct (run_created_ids reqs initial) as [Hids _].
  fold ids in Hids. cbn in Hids. split_and!.
  - done.
  - rewrite Hids. apply StronglySorted_seqZ.
  - rewrite Hids. apply NoDup_seqZ.
  - apply store_ok_NoDup, run_store_ok, store_ok_initial.
Qed.

(** C10.  In every state reached from the empty store, every stored task has
    an id strictly below the counter, the counter is 1 plus the number of
    creates performed so far, and a request that is not a create (get, list,
    update, delete) leaves the counter as it is. *)
Theorem C10_counter_above_ids (reqs : list (string * Request)) :
  let s := (run reqs initial).2 in
  Forall (λ task, Task.id task < task_id_counter s) (tasks_db s)
  ∧ task_id_counter s = 1 + Z.of_nat (length (created_ids (run reqs initial).1))
  ∧ ∀ utcnow req, is_create req = false →
      task_id_counter (app utcnow req s).2 = task_id_counter s.
Proof.
  intros s. split_and!.
  - destruct (run_store_ok reqs initial store_ok_initial) as [_ Hb _ _].
    eapply Forall_impl; [exact Hb|]. cbn. unfold s. intros task ?. lia.
  - unfold s. by destruct (run_created_ids reqs initial) as [_ ->].
  - intros utcnow req Hreq.
    destruct (app_counter utcnow req s) as [(Hcreate & _)|[_ ->]]; [|done].
    congruence.
Qed.

(** C3.  When no stored task has the id, get, update and delete each answer
    404 with the detail "Task with id <id> not found", and the store and the
    counter are left as they were.  For update this is the handler, which
    runs on any [TaskCreate] value, and the route on any body that parses. *)
Theorem C3_not_found (utcnow : string) (task_id : Z) (s : State) :
  task_id ∉ (Task.id <$> tasks_db s) →
  let detail := "Task with id " +:+ pretty task_id +:+ " not found" in
  app utcnow (GET_task task_id) s = (mkResponse 404 (JSON_detail detail), s)
  ∧ (∀ task_update,
       update_task task_id task_update s = (inl (mkHTTPException 404 detail), s))
  ∧ (∀ body, is_Some (parse_TaskCreate body) →
       app utcnow (PUT_task task_id body) s = (mkResponse 404 (JSON_detail detail), s))
  ∧ app utcnow (DELETE_task task_id) s = (mkResponse 404 (JSON_detail detail), s).
Proof.
  intros Habs%find_task_None detail. split_and!.
  - by rewrite app_GET_task, Habs.
  - intros task_update. unfold update_task, read, mbind, Handler_bind.
    by rewrite Habs.
  - intros body [task_update Hbody].
    by rewrite (app_PUT_task _ _ _ _ _ Hbody), Habs.
  - by rewrite app_DELETE_task, Habs.
Qed.

(** C8.  In every state reached from the empty store, the list route answers
    200 with exactly the stored tasks and changes nothing; the stored tasks
    are in the order of their creation, that is by increasing id, and an
    update does not move any of them; and a second list right after the
    first gives the same answer. *)
Theorem C8_list_insertion_order (reqs : list (string * Request))
    (utcnow utcnow' : string) :
  let s := (run reqs initial).2 in
  app utcnow GET_tasks s = (mkResponse 200 (JSON_Tasks (tasks_db s)), s)
  ∧ StronglySorted Z.lt (Task.id <$> tasks_db s)
  ∧ (∀ u task_id body,
       Task.id <$> tasks_db (app u (PUT_task task_id body) s).2
       = Task.id <$> tasks_db s)
  ∧ (app utcnow' GET_tasks (app utcnow GET_tasks s).2).1
    = (app utcnow GET_tasks s).1.
Proof.
  intros s. pose proof (run_store_ok reqs initial store_ok_initial) as Hok.
  fold s in Hok. destruct Hok as [Hs _ _ Hv].
  assert (∀ u, app u GET_tasks s = (mkResponse 200 (JSON_Tasks (tasks_db s)), s))
    as Hlist.
  { intros u. rewrite app_GET_tasks. unfold response_List_Task.
    by rewrite (store_ok_response_List_Task_ok _ Hv). }
  split_and!; [done..| |].
  - intros u task_id body.
    destruct (parse_TaskCreate body) as [task_update|] eqn:Hbody.
    + rewrite (app_PUT_task _ _ _ _ _ Hbody).
      destruct (find_task _ _) as [[i task]|] eqn:Hfind; [|done].
      cbn. rewrite list_fmap_insert. cbn. apply list_insert_id.
      apply find_task_Some in Hfind as (Hi & _). by rewrite list_lookup_fmap, Hi.
    + rewrite (app_invalid_body _ _ _ body); eauto.
  - by rewrite !Hlist.
Qed.

(** C2.  When a task with the id is stored and the update body is valid, the
    update answers 200 with a task whose title, description and completed
    are those of the body, and that task is what the id resolves to
    afterwards (a following get returns it): an omitted description is
    stored as absent and an omitted completed as false, whatever the task
    held before. *)
Theorem C2_update_replaces_wholesale (utcnow utcnow' : string) (s : State)
    (task_id : Z) (body : Body) :
  task_id ∈ Task.id <$> tasks_db s →
  is_Some (parse_TaskCreate body) →
  let s' := (app utcnow (PUT_task task_id body) s).2 in
  ∃ i task',
    (app utcnow (PUT_task task_id body) s).1 = mkResponse 200 (JSON_Task task')
    ∧ find_task task_id (tasks_db s') = Some (i, task')
    ∧ app utcnow' (GET_task task_id) s' = (mkResponse 200 (JSON_Task task'), s')
    ∧ body_title body = Some (Task.title task')
    ∧ Task.description task' = body_description body
    ∧ Task.completed task' = default false (body_completed body)
    ∧ (body_description body = None → Task.description task' = None)
    ∧ (body_completed body = None → Task.completed task' = false).
Proof.
  intros Hin [task_update Hbody] s'.
  destruct (parse_TaskCreate_Some _ _ Hbody) as (Htitle & Hdesc & Hcompl & Ht & Hd).
  destruct (find_task task_id (tasks_db s)) as [[i old]|] eqn:Hfind; last first.
  { by apply find_task_None in Hfind. }
  pose proof (app_PUT_task utcnow s task_id body task_update Hbody) as Hput.
  rewrite Hfind in Hput. cbn zeta in Hput.
  set (task' := Task.mk _ _ _ _ _) in Hput.
  assert (find_task task_id (tasks_db s') = Some (i, task')) as Hfind'.
  { unfold s'. rewrite Hput. cbn [snd tasks_db].
    eapply find_task_insert_same; [done|].
    by apply find_task_Some in Hfind as (_ & ? & _). }
  exists i, task'. split_and!; try done.
  - by rewrite Hput.
  - rewrite app_GET_task, Hfind'. unfold response_Task, Task.validate.
    cbn. by rewrite Ht, Hd.
  - intros Hnone. cbn. by rewrite Hdesc.
  - intros Hnone. cbn. by rewrite Hcompl, Hnone.
Qed.

(** C5.  In a state reached from the empty store, a valid update of the task
    at position [i] answers 200 and replaces that entry alone: the new entry
    has the old id and created_at, every other position holds what it held,
    the list keeps its length, and the counter is unchanged. *)
Theorem C5_update_frame (reqs : list (string * Request)) (utcnow : string)
    (i : nat) (old : Task.t) (body : Body) :
  let s := (run reqs initial).2 in
  tasks_db s !! i = Some old →
  is_Some (parse_TaskCreate body) →
  let s' := (app utcnow (PUT_task (Task.id old) body) s).2 in
  ∃ new,
    (app utcnow (PUT_task (Task.id old) body) s).1 = mkResponse 200 (JSON_Task new)
    ∧ tasks_db s' = <[i := new]> (tasks_db s)
    ∧ tasks_db s' !! i = Some new
    ∧ Task.id new = Task.id old
    ∧ Task.created_at new = Task.created_at old
    ∧ (∀ j, j ≠ i → tasks_db s' !! j = tasks_db s !! j)
    ∧ length (tasks_db s') = length (tasks_db s)
    ∧ task_id_counter s' = task_id_counter s.
Proof.
  intros s Hi [task_update Hbody] s'.
  assert (find_task (Task.id old) (tasks_db s) = Some (i, old)) as Hfind.
  { apply find_task_unique; [|done].
    apply store_ok_NoDup, run_store_ok, store_ok_initial. }
  pose proof (app_PUT_task utcnow s (Task.id old) body task_update Hbody) as Hput.
  rewrite Hfind in Hput. cbn zeta in Hput.
  set (new := Task.mk _ _ _ _ _) in Hput.
  exists new. unfold s'. rewrite Hput. cbn [fst snd tasks_db task_id_counter].
  split_and!; try done.
  - apply list_lookup_insert_eq. by eapply lookup_lt_Some.
  - intros j Hj. by apply list_lookup_insert_ne.
  - apply length_insert.
Qed.

(** C6.  In a state reached from the empty store, once a delete of an id has
    answered 204, a get and a delete of the same id served after any
    requests that are not creates both answer 404. *)
Theorem C6_delete_is_terminal (reqs mid : list (string * Request))
    (utcnow u1 u2 : string) (task_id : Z) :
  let s := (run reqs initial).2 in
  status (app utcnow (DELETE_task task_id) s).1 = 204 →
  Forall (λ r, is_create r.2 = false) mid →
  let s' := (run mid (app utcnow (DELETE_task task_id) s).2).2 in
  (app u1 (GET_task task_id) s').1
    = mkResponse 404 (JSON_detail (not_found_detail task_id))
  ∧ (app u2 (DELETE_task task_id) s').1
    = mkResponse 404 (JSON_detail (not_found_detail task_id)).
Proof.
  intros s Hdel Hmid s'.
  assert (store_ok s) as Hok by apply run_store_ok, store_ok_initial.
  destruct (app_DELETE_task_204 utcnow task_id s Hok Hdel) as [Habs _].
  assert (find_task task_id (tasks_db s') = None) as Hfind.
  { apply find_task_None. intros Hin. apply Habs.
    eapply elem_of_sublist; [done|]. by apply run_ids_no_create. }
  by rewrite app_GET_task, app_DELETE_task, Hfind.
Qed.

(** The same holds when creates are served in between, since a create never
    hands out an id below the counter. *)
Lemma delete_is_terminal_with_creates (reqs mid : list (string * Request))
    (utcnow u1 u2 : string) (task_id : Z) :
  let s := (run reqs initial).2 in
  status (app utcnow (DELETE_task task_id) s).1 = 204 →
  let s' := (run mid (app utcnow (DELETE_task task_id) s).2).2 in
  (app u1 (GET_task task_id) s').1
    = mkResponse 404 (JSON_detail (not_found_detail task_id))
  ∧ (app u2 (DELETE_task task_id) s').1
    = mkResponse 404 (JSON_detail (not_found_detail task_id)).
Proof.
  intros s Hdel s'.
  assert (store_ok s) as Hok by apply run_store_ok, store_ok_initial.
  destruct (app_DELETE_task_204 utcnow task_id s Hok Hdel) as [Habs Hlt].
  assert (find_task task_id (tasks_db s') = None) as Hfind.
  { by apply find_task_None, run_absent_below_counter. }
  by rewrite app_GET_task, app_DELETE_task, Hfind.
Qed.

(** C7.  In a state reached from the empty store, a create with a valid body
    answers 201 with a task that carries the body's title, description and
    completed (absent description and false when omitted), the counter's
    value as id and the clock reading as created_at; a get of that id then
    answers 200 with the very same task. *)
Theorem C7_create_then_get (reqs : list (string * Request))
    (utcnow utcnow' : string) (body : Body) :
  let s := (run reqs initial).2 in
  is_Some (parse_TaskCreate body) →
  let s' := (app utcnow (POST_tasks body) s).2 in
  ∃ new,
    (app utcnow (POST_tasks body) s).1 = mkResponse 201 (JSON_Task new)
    ∧ app utcnow' (GET_task (Task.id new)) s' = (mkResponse 200 (JSON_Task new), s')
    ∧ body_title body = Some (Task.title new)
    ∧ Task.description new = body_description body
    ∧ Task.completed new = default false (body_completed body)
    ∧ Task.id new = task_id_counter s
    ∧ Task.created_at new = utcnow.
Proof.
  intros s [task Hbody] s'.
  destruct (parse_TaskCreate_Some _ _ Hbody) as (Htitle & Hdesc & Hcompl & Ht & Hd).
  pose proof (app_POST_tasks utcnow s body task Hbody) as Hpost.
  cbn zeta in Hpost. set (new := Task.mk _ _ _ _ _) in Hpost.
  exists new. unfold s'. rewrite Hpost. cbn [fst snd].
  split_and!; try done.
  rewrite app_GET_task. cbn [tasks_db].
  rewrite find_task_append_new.
  - unfold response_Task, Task.validate. cbn. by rewrite Ht, Hd.
  - destruct (run_store_ok reqs initial store_ok_initial) as [_ Hb _ _].
    intros (task1 & Heq & Hin)%list_elem_of_fmap.
    eapply Forall_forall in Hb; [|done]. cbn in Heq. fold s in Hb. lia.
Qed.

(** C4.  For a create and for an update alike: a body whose title has
    exactly 100 characters (and whose description, if any, is within its own
    limit) is accepted, the create answering 201 and the update 200 or 404
    according to whether the id is stored; a body whose title has 101
    characters or is empty is answered 422, and the store and the counter
    are left as they were. *)
Theorem C4_title_length_boundary (utcnow : string) (s : State) (task_id : Z)
    (body : Body) (title : string) :
  body_title body = Some title →
  (String.length title = 100%nat →
   TaskBase.description_field (body_description body) = true →
   is_Some (parse_TaskCreate body)
   ∧ status (app utcnow (POST_tasks body) s).1 = 201
   ∧ status (app utcnow (PUT_task task_id body) s).1
     = if decide (task_id ∈ Task.id <$> tasks_db s) then 200 else 404)
  ∧ (String.length title = 101%nat ∨ title = "" →
     app utcnow (POST_tasks body) s = (mkResponse 422 ValidationErrors, s)
     ∧ app utcnow (PUT_task task_id body) s = (mkResponse 422 ValidationErrors, s)).
Proof.
  intros Htitle. split.
  - intros Hlen Hdesc.
    assert (∃ task, parse_TaskCreate body = Some task) as [task Hbody].
    { unfold parse_TaskCreate. rewrite Htitle, Hdesc.
      unfold TaskBase.title_field, min_length, max_length. rewrite Hlen.
      cbn. eauto. }
    split_and!; [by exists task|..].
    + by rewrite (app_POST_tasks _ _ _ _ Hbody).
    + rewrite (app_PUT_task _ _ _ _ _ Hbody).
      destruct (find_task _ _) as [[i old]|] eqn:Hfind.
      * rewrite decide_True; [done|].
        destruct (decide (task_id ∈ Task.id <$> tasks_db s)) as [|Hn]; [done|].
        apply find_task_None in Hn. congruence.
      * apply find_task_None in Hfind. by rewrite decide_False.
  - intros Hbad.
    assert (parse_TaskCreate body = None) as Hbody.
    { unfold parse_TaskCreate. rewrite Htitle.
      unfold TaskBase.title_field, min_length, max_length.
      destruct Hbad as [-> | ->]; [|done].
      rewrite (bool_decide_eq_false_2 (101 ≤ 100)%nat) by lia.
      by rewrite andb_false_r. }
    split; apply (app_invalid_body _ _ _ body); eauto.
Qed.

(** * Scenarios *)

(** [POST /tasks {"title": "Buy milk"}], [GET /tasks/1], [DELETE /tasks/1],
    [GET /tasks/1]. *)
Example scenario_buy_milk :
  (run [("t1", POST_tasks (mkBody (Some "Buy milk") None None));
        ("t2", GET_task 1);
        ("t3", DELETE_task 1);
        ("t4", GET_task 1)] initial).1
  = [mkResponse 201 (JSON_Task (Task.mk 1 "Buy milk" None false "t1"));
     mkResponse 200 (JSON_Task (Task.mk 1 "Buy milk" None false "t1"));
     mkResponse 204 Empty;
     mkResponse 404 (JSON_detail "Task with id 1 not found")].
Proof. vm_compute. reflexivity. Qed.

(** [POST /tasks {"title": ""}] leaves the store and the counter alone. *)
Example scenario_empty_title :
  app "t" (POST_tasks (mkBody (Some "") None None)) initial
  = (mkResponse 422 ValidationErrors, initial).
Proof. reflexivity. Qed.

(** An id is not handed out again after its task is deleted. *)
Example scenario_id_not_reused :
  created_ids
    (run [("t1", POST_tasks (mkBody (Some "a") None None));
          ("t2", DELETE_task 1);
          ("t3", POST_tasks (mkBody (Some "b") None None))] initial).1
  = [1; 2].
Proof. reflexivity. Qed.

(** A negative id is printed with its sign. *)
Example scenario_negative_id :
  (app "t" (GET_task (-5)) initial).1
  = mkResponse 404 (JSON_detail "Task with id -5 not found").
Proof. vm_compute. reflexivity. Qed.

(** A body that fails validation is answered 422 before the id is looked
    up. *)
Example scenario_invalid_body_unknown_id :
  app "t" (PUT_task 999 (mkBody (Some "") None None)) initial
  = (mkResponse 422 ValidationErrors, initial).
Proof. reflexivity. Qed.

(** * The properties at concrete inputs *)

(** [PUT /tasks/999 {"title": "x"}] on the empty store. *)
Lemma C3_not_found_witness :
  (999 ∉ Task.id <$> tasks_db initial)
  ∧ app "t" (PUT_task 999 (mkBody (Some "x") None None)) initial
    = (mkResponse 404 (JSON_detail "Task with id 999 not found"), initial)
  ∧ app "t" (GET_task 999) initial
    = (mkResponse 404 (JSON_detail "Task with id 999 not found"), initial).
Proof.
  assert (999 ∉ (Task.id <$> tasks_db initial)) as Habs.
  { cbn. apply not_elem_of_nil. }
  destruct (C3_not_found "t" 999 initial Habs) as (Hget & _ & Hput & _).
  split_and!; [exact Habs| |exact Hget].
  apply Hput. vm_compute. eauto.
Defined.

(** A delete after one create leaves the counter at 2. *)
Lemma C10_counter_above_ids_witness :
  is_create (DELETE_task 1) = false
  ∧ task_id_counter
      (app "t2" (DELETE_task 1)
         (run [("t1", POST_tasks (mkBody (Some "Buy milk") None None))] initial).2).2
    = 2.
Proof.
  split; [reflexivity|].
  apply (C10_counter_above_ids
           [("t1", POST_tasks (mkBody (Some "Buy milk") None None))]).
  reflexivity.
Defined.

(** A task created with a description and completed, then updated with a
    body that has a title only. *)
Lemma C2_update_replaces_wholesale_witness :
  let s := (run [("t1", POST_tasks (mkBody (Some "T") (Some "D") (Some true)))]
              initial).2 in
  let body := mkBody (Some "U") None None in
  (1 ∈ Task.id <$> tasks_db s)
  ∧ is_Some (parse_TaskCreate body)
  ∧ ∃ i task',
      find_task 1 (tasks_db (app "t2" (PUT_task 1 body) s).2) = Some (i, task')
      ∧ body_title body = Some (Task.title task')
      ∧ Task.description task' = None
      ∧ Task.completed task' = false.
Proof.
  intros s body.
  assert (1 ∈ Task.id <$> tasks_db s) as Hin by (vm_compute; apply list_elem_of_here).
  assert (is_Some (parse_TaskCreate body)) as Hbody by (vm_compute; eauto).
  split_and!; [exact Hin|exact Hbody|].
  destruct (C2_update_replaces_wholesale "t2" "t3" s 1 body Hin Hbody)
    as (i & task' & _ & Hfind & _ & Htitle & _ & _ & Hdesc & Hcompl).
  exists i, task'. split_and!; [exact Hfind|exact Htitle|..].
  - apply Hdesc. reflexivity.
  - apply Hcompl. reflexivity.
Defined.

(** The first of two stored tasks is updated. *)
Lemma C5_update_frame_witness :
  let reqs := [("t1", POST_tasks (mkBody (Some "A") (Some "D") None));
               ("t2", POST_tasks (mkBody (Some "B") None None))] in
  let s := (run reqs initial).2 in
  let old := Task.mk 1 "A" (Some "D") false "t1" in
  let body := mkBody (Some "A2") None (Some true) in
  tasks_db s !! 0%nat = Some old
  ∧ is_Some (parse_TaskCreate body)
  ∧ ∃ new,
      tasks_db (app "t3" (PUT_task 1 body) s).2 = <[0%nat := new]> (tasks_db s)
      ∧ Task.id new = 1
      ∧ Task.created_at new = "t1"
      ∧ tasks_db (app "t3" (PUT_task 1 body) s).2 !! 1%nat = tasks_db s !! 1%nat.
Proof.
  intros reqs s old body.
  assert (tasks_db s !! 0%nat = Some old) as Hold by reflexivity.
  assert (is_Some (parse_TaskCreate body)) as Hbody by (vm_compute; eauto).
  split_and!; [exact Hold|exact Hbody|].
  destruct (C5_update_frame reqs "t3" 0 old body Hold Hbody)
    as (new & _ & Hdb & _ & Hid & Hcreated & Hother & _).
  exists new. split_and!; [exact Hdb|exact Hid|exact Hcreated|].
  apply Hother. lia.
Defined.

(** Create, delete, then a list and an update of the deleted id before the
    get and the second delete. *)
Lemma C6_delete_is_terminal_witness :
  let reqs := [("t1", POST_tasks (mkBody (Some "Buy milk") None None))] in
  let mid := [("t3", GET_tasks);
              ("t4", PUT_task 1 (mkBody (Some "x") None None))] in
  let s := (run reqs initial).2 in
  status (app "t2" (DELETE_task 1) s).1 = 204
  ∧ Forall (λ r, is_create r.2 = false) mid
  ∧ (app "t5" (GET_task 1) (run mid (app "t2" (DELETE_task 1) s).2).2).1
    = mkResponse 404 (JSON_detail "Task with id 1 not found")
  ∧ (app "t6" (DELETE_task 1) (run mid (app "t2" (DELETE_task 1) s).2).2).1
    = mkResponse 404 (JSON_detail "Task with id 1 not found").
Proof.
  intros reqs mid s.
  assert (status (app "t2" (DELETE_task 1) s).1 = 204) as Hdel by reflexivity.
  assert (Forall (λ r, is_create r.2 = false) mid) as Hmid.
  { repeat constructor. }
  split_and!; [exact Hdel|exact Hmid|..];
    apply (C6_delete_is_terminal reqs mid "t2" "t5" "t6" 1 Hdel Hmid).
Defined.

(** [{"title": "T", "description": "D", "completed": false}] on the empty
    store. *)
Lemma C7_create_then_get_witness :
  let body := mkBody (Some "T") (Some "D") (Some false) in
  is_Some (parse_TaskCreate body)
  ∧ ∃ new,
      (app "t1" (POST_tasks body) (run [] initial).2).1
        = mkResponse 201 (JSON_Task new)
      ∧ (app "t2" (GET_task (Task.id new))
           (app "t1" (POST_tasks body) (run [] initial).2).2).1
        = mkResponse 200 (JSON_Task new)
      ∧ Task.title new = "T"
      ∧ Task.description new = Some "D"
      ∧ Task.completed new = false
      ∧ Task.id new = 1.
Proof.
  intros body.
  assert (is_Some (parse_TaskCreate body)) as Hbody by (vm_compute; eauto).
  split; [exact Hbody|].
  destruct (C7_create_then_get [] "t1" "t2" body Hbody)
    as (new & Hpost & Hget & Htitle & Hdesc & Hcompl & Hid & _).
  exists new. split_and!; [exact Hpost| | |exact Hdesc|exact Hcompl|exact Hid].
  - by rewrite Hget.
  - cbn in Htitle. by injection Htitle.
Defined.

(** Titles of 100 and of 101 characters and the empty title, on the empty
    store. *)
Lemma C4_title_length_boundary_witness :
  let t100 := "aaaaaaaaaaaaaaaaaaaaaaaaaaaaaaaaaaaaaaaaaaaaaaaaaaaaaaaaaaaaaaaaaaaaaaaaaaaaaaaaaaaaaaaaaaaaaaaaaaaa" in
  let t101 := "aaaaaaaaaaaaaaaaaaaaaaaaaaaaaaaaaaaaaaaaaaaaaaaaaaaaaaaaaaaaaaaaaaaaaaaaaaaaaaaaaaaaaaaaaaaaaaaaaaaaa" in
  (String.length t100 = 100%nat
   ∧ status (app "t" (POST_tasks (mkBody (Some t100) None None)) initial).1 = 201
   ∧ status (app "t" (PUT_task 1 (mkBody (Some t100) None None)) initial).1 = 404)
  ∧ (String.length t101 = 101%nat
     ∧ app "t" (POST_tasks (mkBody (Some t101) None None)) initial
       = (mkResponse 422 ValidationErrors, initial))
  ∧ app "t" (PUT_task 1 (mkBody (Some "") None None)) initial
    = (mkResponse 422 ValidationErrors, initial).
Proof.
  intros t100 t101. split_and!.
  - reflexivity.
  - by apply (C4_title_length_boundary "t" initial 1 (mkBody (Some t100) None None)
                t100 eq_refl).
  - by apply (C4_title_length_boundary "t" initial 1 (mkBody (Some t100) None None)
                t100 eq_refl).
  - reflexivity.
  - apply (C4_title_length_boundary "t" initial 1 (mkBody (Some t101) None None)
             t101 eq_refl). by left.
  - apply (C4_title_length_boundary "t" initial 1 (mkBody (Some "") None None)
             "" eq_refl). by right.
Defined.

(** * Further properties of the store *)

(** ** Lists with distinct keys *)

Lemma filter_all {A} (P : A → Prop) `{!∀ x, Decision (P x)} (l : list A) :
  Forall P l → filter P l = l.
Proof.
  induction 1 as [|x l Hx _ IH]; [done|].
  by rewrite filter_cons_True, IH.
Qed.

Lemma delete_filter_unique {A} (f : A → Z) (l : list A) i x :
  NoDup (f <$> l) → l !! i = Some x →
  delete i l = filter (λ y, f y ≠ f x) l.
Proof.
  revert i. induction l as [|y l IH]; intros i Hnd Hi; [done|].
  rewrite fmap_cons in Hnd. apply NoDup_cons in Hnd as [Hy Hnd].
  destruct i as [|i]; cbn in Hi.
  - injection Hi as ->. cbn [delete list_delete].
    rewrite filter_cons_False by (intros ?; done).
    symmetry. apply filter_all, Forall_forall. intros z Hz Heq.
    apply Hy. rewrite <-Heq. by apply list_elem_of_fmap_2.
  - cbn [delete list_delete]. rewrite filter_cons_True.
    + f_equal. by apply IH.
    + intros Heq. apply Hy. rewrite Heq.
      apply list_elem_of_fmap_2. by eapply list_elem_of_lookup_2.
Qed.

(** In a store with distinct ids, a delete keeps exactly the tasks that
    bear another id, whether or not the id was stored. *)
Lemma app_DELETE_task_filter utcnow task_id s :
  NoDup (Task.id <$> tasks_db s) →
  (app utcnow (DELETE_task task_id) s).2
  = mkState (filter (λ task, Task.id task ≠ task_id) (tasks_db s))
      (task_id_counter s).
Proof.
  intros Hnd. rewrite app_DELETE_task.
  destruct (find_task _ _) as [[i task]|] eqn:Hfind; cbn.
  - apply find_task_Some in Hfind as (Hi & <- & _).
    by rewrite (delete_filter_unique Task.id _ i task).
  - apply find_task_None in Hfind. rewrite filter_all; [by destruct s|].
    apply Forall_forall. intros task Hin Heq. apply Hfind.
    rewrite <-Heq. by apply list_elem_of_fmap_2.
Qed.

(** ** Lookups of another id *)

Lemma find_task_cons task_id task db :
  find_task task_id (task :: db) =
    if decide (Task.id task = task_id) then Some (0%nat, task)
    else prod_map S id <$> find_task task_id db.
Proof. done. Qed.

Lemma find_task_delete_other task_id db i task :
  db !! i = Some task → Task.id task ≠ task_id →
  snd <$> find_task task_id (delete i db) = snd <$> find_task task_id db.
Proof.
  revert i. induction db as [|task0 db IH]; intros i Hi Hne; [done|].
  destruct i as [|i]; cbn in Hi.
  - injection Hi as ->. cbn [delete list_delete].
    rewrite find_task_cons, decide_False by done.
    by destruct (find_task task_id db) as [[??]|].
  - cbn [delete list_delete]. rewrite !find_task_cons.
    destruct (decide (Task.id task0 = task_id)); [done|].
    specialize (IH i Hi Hne).
    destruct (find_task task_id (delete i db)) as [[??]|],
      (find_task task_id db) as [[??]|]; cbn in *; congruence.
Qed.

Lemma find_task_insert_other task_id db i old new :
  db !! i = Some old → Task.id old ≠ task_id → Task.id new ≠ task_id →
  find_task task_id (<[i := new]> db) = find_task task_id db.
Proof.
  revert i. induction db as [|task0 db IH]; intros i Hi Hold Hnew; [done|].
  destruct i as [|i]; cbn in Hi.
  - injection Hi as ->. cbn [insert list_insert].
    by rewrite !find_task_cons, !decide_False.
  - cbn [insert list_insert]. rewrite !find_task_cons.
    destruct (decide _); [done|]. f_equal. by apply IH.
Qed.

Lemma find_task_append_other task_id db new :
  Task.id new ≠ task_id →
  find_task task_id (db ++ [new]) = find_task task_id db.
Proof.
  intros Hnew. induction db as [|task0 db IH].
  - cbn. by rewrite decide_False.
  - rewrite <-app_comm_cons, !find_task_cons, IH. done.
Qed.

(** What a get answers depends only on the task the id resolves to. *)
Lemma app_GET_task_resolves utcnow utcnow' task_id s s' :
  snd <$> find_task task_id (tasks_db s') = snd <$> find_task task_id (tasks_db s) →
  (app utcnow' (GET_task task_id) s').1 = (app utcnow (GET_task task_id) s).1.
Proof.
  intros Heq. rewrite !app_GET_task.
  destruct (find_task task_id (tasks_db s')) as [[??]|],
    (find_task task_id (tasks_db s)) as [[??]|]; cbn in Heq; try done.
  by injection Heq as ->.
Qed.

(** X1.  In a state reached from the empty store, the delete of a stored id
    answers 204 and removes the task with that id and nothing else: the
    tasks with another id stay, in the same order, the list is one shorter,
    and the counter is unchanged. *)
Theorem delete_removes_one (reqs : list (string * Request)) (utcnow : string)
    (task_id : Z) :
  let s := (run reqs initial).2 in
  task_id ∈ Task.id <$> tasks_db s →
  let s' := (app utcnow (DELETE_task task_id) s).2 in
  (app utcnow (DELETE_task task_id) s).1 = mkResponse 204 Empty
  ∧ tasks_db s' = filter (λ task, Task.id task ≠ task_id) (tasks_db s)
  ∧ S (length (tasks_db s')) = length (tasks_db s)
  ∧ task_id_counter s' = task_id_counter s.
Proof.
  intros s Hin s'.
  assert (NoDup (Task.id <$> tasks_db s)) as Hnd
    by apply store_ok_NoDup, run_store_ok, store_ok_initial.
  pose proof (app_DELETE_task_filter utcnow task_id s Hnd) as Hs'.
  assert (∃ i task, find_task task_id (tasks_db s) = Some (i, task))
    as (i & task & Hfind).
  { destruct (find_task _ _) as [[i task]|] eqn:Hfind; [by eauto|].
    by apply find_task_None in Hfind. }
  split_and!.
  - by rewrite app_DELETE_task, Hfind.
  - unfold s'. by rewrite Hs'.
  - unfold s'. rewrite app_DELETE_task, Hfind. cbn.
    apply find_task_Some in Hfind as (Hi%lookup_lt_Some & _).
    rewrite length_delete by (by apply lookup_lt_is_Some). lia.
  - unfold s'. by rewrite Hs'.
Qed.

(** X2.  In any state, a write that concerns one id does not change what a
    get of another id answers: an update or a delete of [task_id], and a
    create (whose new id is the counter), leave the answer to a get of
    [other] as it was. *)
Theorem writes_leave_other_ids (utcnow utcnow' : string) (s : State)
    (task_id other : Z) (body : Body) :
  (other ≠ task_id →
   (app utcnow' (GET_task other) (app utcnow (PUT_task task_id body) s).2).1
   = (app utcnow' (GET_task other) s).1
   ∧ (app utcnow' (GET_task other) (app utcnow (DELETE_task task_id) s).2).1
     = (app utcnow' (GET_task other) s).1)
  ∧ (other ≠ task_id_counter s →
     (app utcnow' (GET_task other) (app utcnow (POST_tasks body) s).2).1
     = (app utcnow' (GET_task other) s).1).
Proof.
  split.
  - intros Hne. split; apply app_GET_task_resolves.
    + destruct (parse_TaskCreate body) as [task_update|] eqn:Hbody.
      * rewrite (app_PUT_task _ _ _ _ _ Hbody).
        destruct (find_task task_id _) as [[i task]|] eqn:Hfind; [|done].
        apply find_task_Some in Hfind as (Hi & Hid & _). cbn [snd tasks_db].
        rewrite (find_task_insert_other other _ i task); [done..| |]; cbn; congruence.
      * rewrite (app_invalid_body _ _ _ body); eauto.
    + rewrite app_DELETE_task.
      destruct (find_task task_id _) as [[i task]|] eqn:Hfind; [|done].
      apply find_task_Some in Hfind as (Hi & Hid & _). cbn [snd tasks_db].
      apply (find_task_delete_other other _ i task); [done|congruence].
  - intros Hne. apply app_GET_task_resolves.
    destruct (parse_TaskCreate body) as [task|] eqn:Hbody.
    + rewrite (app_POST_tasks _ _ _ _ Hbody). cbn [snd tasks_db].
      rewrite find_task_append_other; [done|]. cbn. congruence.
    + rewrite (app_invalid_body _ _ _ body); eauto.
Qed.

(** X3.  In any state, a request that is answered with a status of 400 or
    more leaves the store and the counter exactly as they were. *)
Theorem error_leaves_state (utcnow : string) (req : Request) (s : State) :
  400 ≤ status (app utcnow req s).1 → (app utcnow req s).2 = s.
Proof.
  destruct req as [|task_id|body|task_id body|task_id].
  - by rewrite app_GET_tasks.
  - rewrite app_GET_task. by destruct (find_task _ _) as [[??]|].
  - destruct (parse_TaskCreate body) as [task|] eqn:Hbody.
    + rewrite (app_POST_tasks _ _ _ _ Hbody). cbn. unfold HTTP_201_CREATED. lia.
    + rewrite (app_invalid_body _ _ _ body); eauto.
  - destruct (parse_TaskCreate body) as [task_update|] eqn:Hbody.
    + rewrite (app_PUT_task _ _ _ _ _ Hbody).
      destruct (find_task _ _) as [[??]|]; [|done]. cbn. unfold HTTP_200_OK. lia.
    + rewrite (app_invalid_body _ _ _ body); eauto.
  - rewrite app_DELETE_task. destruct (find_task _ _) as [[??]|]; [|done].
    cbn. unfold HTTP_204_NO_CONTENT. lia.
Qed.

(** ** Status codes *)

Lemma app_status_table utcnow req s :
  store_ok s →
  status (app utcnow req s).1 =
    match req with
    | GET_tasks => 200
    | GET_task task_id =>
        if decide (task_id ∈ Task.id <$> tasks_db s) then 200 else 404
    | POST_tasks body =>
        if parse_TaskCreate body is Some _ then 201 else 422
    | PUT_task task_id body =>
        if parse_TaskCreate body is Some _
        then if decide (task_id ∈ Task.id <$> tasks_db s) then 200 else 404
        else 422
    | DELETE_task task_id =>
        if decide (task_id ∈ Task.id <$> tasks_db s) then 204 else 404
    end.
Proof.
  intros [_ _ _ Hv].
  assert (∀ task_id, find_task task_id (tasks_db s) = None
                     ↔ ¬ (task_id ∈ Task.id <$> tasks_db s)) as Hnone.
  { intros task_id. apply find_task_None. }
  destruct req as [|task_id|body|task_id body|task_id].
  - rewrite app_GET_tasks. unfold response_List_Task.
    by rewrite (store_ok_response_List_Task_ok _ Hv).
  - rewrite app_GET_task.
    destruct (find_task _ _) as [[i task]|] eqn:Hfind.
    + rewrite decide_True.
      * apply find_task_Some in Hfind as (Hi%list_elem_of_lookup_2 & _).
        eapply Forall_forall in Hv; [|done]. unfold response_Task. by rewrite Hv.
      * destruct (decide (task_id ∈ Task.id <$> tasks_db s)) as [|Hn]; [done|].
        apply Hnone in Hn. congruence.
    + apply Hnone in Hfind. by rewrite decide_False.
  - destruct (parse_TaskCreate body) as [task|] eqn:Hbody.
    + by rewrite (app_POST_tasks _ _ _ _ Hbody).
    + rewrite (app_invalid_body _ _ _ body); eauto.
  - destruct (parse_TaskCreate body) as [task_update|] eqn:Hbody.
    + rewrite (app_PUT_task _ _ _ _ _ Hbody).
      destruct (find_task _ _) as [[i task]|] eqn:Hfind.
      * rewrite decide_True; [done|].
        destruct (decide (task_id ∈ Task.id <$> tasks_db s)) as [|Hn]; [done|].
        apply Hnone in Hn. congruence.
      * apply Hnone in Hfind. by rewrite decide_False.
    + rewrite (app_invalid_body _ _ _ body); eauto.
  - rewrite app_DELETE_task.
    destruct (find_task _ _) as [[i task]|] eqn:Hfind.
    + rewrite decide_True; [done|].
      destruct (decide (task_id ∈ Task.id <$> tasks_db s)) as [|Hn]; [done|].
      apply Hnone in Hn. congruence.
    + apply Hnone in Hfind. by rewrite decide_False.
Qed.

Lemma run_statuses reqs s :
  store_ok s →
  Forall (λ resp, status resp ∈ [200; 201; 204; 404; 422]) (run reqs s).1.
Proof.
  revert s. induction reqs as [|[utcnow req] reqs IH]; intros s Hok.
  - constructor.
  - rewrite run_cons. cbn [fst]. constructor; [|by apply IH, app_store_ok].
    rewrite (app_status_table _ _ _ Hok).
    destruct req; repeat case_match; repeat constructor.
Qed.

(** X4.  Served from the empty store, every request is answered 200, 201,
    204, 404 or 422, never with a server error; and in the state reached the
    status of the next answer is decided by the request alone: 422 for a
    body that fails validation, before the id is looked at, otherwise 404
    for an id that is not stored, otherwise 200 (201 for a create, 204 for a
    delete). *)
Theorem status_codes (reqs : list (string * Request)) (utcnow : string)
    (req : Request) :
  let s := (run reqs initial).2 in
  Forall (λ resp, status resp ∈ [200; 201; 204; 404; 422]) (run reqs initial).1
  ∧ status (app utcnow req s).1 =
      match req with
      | GET_tasks => 200
      | GET_task task_id =>
          if decide (task_id ∈ Task.id <$> tasks_db s) then 200 else 404
      | POST_tasks body =>
          if parse_TaskCreate body is Some _ then 201 else 422
      | PUT_task task_id body =>
          if parse_TaskCreate body is Some _
          then if decide (task_id ∈ Task.id <$> tasks_db s) then 200 else 404
          else 422
      | DELETE_task task_id =>
          if decide (task_id ∈ Task.id <$> tasks_db s) then 204 else 404
      end.
Proof.
  intros s. split.
  - apply run_statuses, store_ok_initial.
  - apply app_status_table, run_store_ok, store_ok_initial.
Qed.

(** ** Reads *)

Lemma app_read utcnow req s : is_read req = true → (app utcnow req s).2 = s.
Proof.
  destruct req as [|task_id| | |]; try done; intros _.
  - by rewrite app_GET_tasks.
  - rewrite app_GET_task. by destruct (find_task _ _) as [[??]|].
Qed.

(** X5.  In any state, the reads of a request sequence have no effect on
    the rest: served without its list and get requests, the sequence ends in
    the same state and its other requests get the same answers. *)
Theorem reads_are_inert (reqs : list (string * Request)) (s : State) :
  (run (writes reqs) s).2 = (run reqs s).2
  ∧ (run (writes reqs) s).1 = answers_to_writes reqs (run reqs s).1.
Proof.
  revert s. induction reqs as [|[utcnow req] reqs IH]; intros s; [done|].
  rewrite run_cons. cbn [fst snd answers_to_writes]. unfold writes in *.
  destruct (is_read req) eqn:Hreq.
  - rewrite filter_cons_False by (cbn; congruence).
    rewrite (app_read _ _ _ Hreq). apply IH.
  - rewrite filter_cons_True by done. rewrite run_cons. cbn [fst snd].
    destruct (IH (app utcnow req s).2) as [-> ->]. done.
Qed.

(** ** The size of the store *)

Lemma count_status_cons code resp resps :
  count_status code (resp :: resps) =
    ((if decide (status resp = code) then 1 else 0) + count_status code resps)%nat.
Proof.
  unfold count_status. rewrite filter_cons. by destruct (decide _).
Qed.

Ltac status_arith :=
  unfold HTTP_200_OK, HTTP_201_CREATED, HTTP_204_NO_CONTENT, HTTP_404_NOT_FOUND,
    HTTP_422_UNPROCESSABLE_ENTITY, HTTP_500_INTERNAL_SERVER_ERROR in *;
  cbn; repeat case_decide; lia.

Lemma app_length utcnow req s :
  (length (tasks_db (app utcnow req s).2)
   + (if decide (status (app utcnow req s).1 = 204%Z) then 1 else 0)
   = length (tasks_db s)
     + (if decide (status (app utcnow req s).1 = 201%Z) then 1 else 0))%nat.
Proof.
  destruct req as [|task_id|body|task_id body|task_id].
  - rewrite app_GET_tasks. unfold response_List_Task.
    by destruct (forallb _ _).
  - rewrite app_GET_task. destruct (find_task _ _) as [[i task]|]; [|done].
    unfold response_Task. by destruct (Task.validate task).
  - destruct (parse_TaskCreate body) as [task|] eqn:Hbody.
    + rewrite (app_POST_tasks _ _ _ _ Hbody). cbn [fst snd tasks_db status].
      rewrite length_app. status_arith.
    + rewrite (app_invalid_body _ _ _ body); eauto.
  - destruct (parse_TaskCreate body) as [task_update|] eqn:Hbody.
    + rewrite (app_PUT_task _ _ _ _ _ Hbody).
      destruct (find_task _ _) as [[i task]|]; [|done].
      cbn [fst snd tasks_db status]. rewrite length_insert. status_arith.
    + rewrite (app_invalid_body _ _ _ body); eauto.
  - rewrite app_DELETE_task.
    destruct (find_task _ _) as [[i task]|] eqn:Hfind; [|done].
    apply find_task_Some in Hfind as (Hi & _).
    cbn [fst snd tasks_db status]. rewrite length_delete by done.
    apply lookup_lt_Some in Hi. status_arith.
Qed.

(** X6.  Served from the empty store, the number of stored tasks is the
    number of 201 answers minus the number of 204 answers given so far. *)
Theorem store_size (reqs : list (string * Request)) :
  (length (tasks_db (run reqs initial).2)
   + count_status 204 (run reqs initial).1
   = count_status 201 (run reqs initial).1)%nat.
Proof.
  change (count_status 201 (run reqs initial).1)
    with (length (tasks_db initial) + count_status 201 (run reqs initial).1)%nat.
  generalize initial as s.
  induction reqs as [|[utcnow req] reqs IH]; intros s; [cbn; lia|].
  rewrite run_cons. cbn [fst snd]. rewrite !count_status_cons.
  pose proof (app_length utcnow req s). specialize (IH (app utcnow req s).2). lia.
Qed.

(** X7.  Served from the empty store, every stored task satisfies the model's
    constraints: a title of 1 to 100 characters, a description that is
    absent or of at most 500 characters, and an id of at least 1. *)
Theorem stored_tasks_valid (reqs : list (string * Request)) :
  Forall (λ task,
      (1 ≤ String.length (Task.title task) ≤ 100)%nat
      ∧ match Task.description task with
        | Some d => (String.length d ≤ 500)%nat
        | None => True
        end
      ∧ 1 ≤ Task.id task)
    (tasks_db (run reqs initial).2).
Proof.
  destruct (run_store_ok reqs initial store_ok_initial) as [_ Hb _ Hv].
  apply Forall_forall. intros task Hin.
  eapply Forall_forall in Hb, Hv; [|done..]. cbn in Hb.
  unfold Task.validate, TaskBase.title_field, TaskBase.description_field,
    min_length, max_length in Hv.
  apply andb_true_iff in Hv as [[Hmin%bool_decide_eq_true Hmax%bool_decide_eq_true]%andb_true_iff Hd].
  split_and!; [done..| |lia].
  destruct (Task.description task) as [d|]; [|done].
  by apply bool_decide_eq_true in Hd.
Qed.

(** ** Where a stored task comes from *)

Lemma app_provenance utcnow req s task :
  task ∈ tasks_db (app utcnow req s).2 →
  (∃ task0, task0 ∈ tasks_db s ∧ Task.id task0 = Task.id task
            ∧ Task.created_at task0 = Task.created_at task)
  ∨ (∃ body, req = POST_tasks body
             ∧ created_id (app utcnow req s).1 = Some (Task.id task)
             ∧ Task.created_at task = utcnow).
Proof.
  destruct req as [|task_id|body|task_id body|task_id].
  - rewrite app_GET_tasks. cbn. eauto.
  - rewrite app_GET_task. destruct (find_task _ _) as [[??]|]; cbn; eauto.
  - destruct (parse_TaskCreate body) as [task1|] eqn:Hbody.
    + rewrite (app_POST_tasks _ _ _ _ Hbody). cbn [fst snd tasks_db].
      intros [Hin| ->%list_elem_of_singleton]%elem_of_app; [by eauto|].
      right. exists body. done.
    + rewrite (app_invalid_body _ _ _ body); cbn; eauto.
  - destruct (parse_TaskCreate body) as [task_update|] eqn:Hbody.
    + rewrite (app_PUT_task _ _ _ _ _ Hbody).
      destruct (find_task _ _) as [[i old]|] eqn:Hfind; [|cbn; by eauto].
      cbn [fst snd tasks_db].
      intros [j [[-> [<- Hlt]]|[Hne Hj]]%list_lookup_insert_Some]%list_elem_of_lookup;
        left.
      * apply find_task_Some in Hfind as (Hi%list_elem_of_lookup_2 & _).
        by exists old.
      * exists task. split; [|done]. by eapply list_elem_of_lookup_2.
    + rewrite (app_invalid_body _ _ _ body); cbn; eauto.
  - rewrite app_DELETE_task.
    destruct (find_task _ _) as [[i old]|]; [|cbn; by eauto].
    cbn [fst snd tasks_db]. intros Hin%list_elem_of_delete_inv. eauto.
Qed.

Lemma run_provenance reqs s task :
  task ∈ tasks_db (run reqs s).2 →
  (∃ task0, task0 ∈ tasks_db s ∧ Task.id task0 = Task.id task
            ∧ Task.created_at task0 = Task.created_at task)
  ∨ (∃ k utcnow body resp,
       reqs !! k = Some (utcnow, POST_tasks body)
       ∧ (run reqs s).1 !! k = Some resp
       ∧ created_id resp = Some (Task.id task)
       ∧ Task.created_at task = utcnow).
Proof.
  revert s. induction reqs as [|[utcnow req] reqs IH]; intros s.
  - cbn. eauto.
  - rewrite run_cons. cbn [fst snd].
    intros [(task1 & Hin1 & Hid1 & Hat1)|(k & u & body & resp & Hk & Hresp & Hid & Hat)]%IH.
    + apply app_provenance in Hin1
        as [(task0 & Hin0 & Hid0 & Hat0)|(body & -> & Hid0 & Hat0)].
      * left. exists task0. split_and!; [done|congruence..].
      * right. exists 0%nat, utcnow, body, (app utcnow (POST_tasks body) s).1.
        split_and!; [done..|congruence|congruence].
    + right. by exists (S k), u, body, resp.
Qed.

(** X8.  Served from the empty store, every stored task goes back to a
    create that was answered 201 with the task's id, and its created_at is
    still the clock reading of that create: no later request has changed
    the id or the creation time of a stored task. *)
Theorem stored_task_provenance (reqs : list (string * Request)) (task : Task.t) :
  task ∈ tasks_db (run reqs initial).2 →
  ∃ k utcnow body resp,
    reqs !! k = Some (utcnow, POST_tasks body)
    ∧ (run reqs initial).1 !! k = Some resp
    ∧ created_id resp = Some (Task.id task)
    ∧ Task.created_at task = utcnow.
Proof.
  intros [(task0 & Hin & _)|Hcreated]%run_provenance; [|done].
  cbn in Hin. by apply not_elem_of_nil in Hin.
Qed.

(** ** Updates and deletes in sequence *)

(** X9.  In any state, of two updates of the same id the second one decides:
    when its body is valid, the state and the answer are those of the second
    update served alone.  In particular an update served twice gives the
    state and the answer of serving it once. *)
Theorem update_last_write_wins (u1 u2 : string) (s : State) (task_id : Z)
    (b1 b2 : Body) :
  (is_Some (parse_TaskCreate b2) →
   app u2 (PUT_task task_id b2) (app u1 (PUT_task task_id b1) s).2
   = app u2 (PUT_task task_id b2) s)
  ∧ app u2 (PUT_task task_id b2) (app u1 (PUT_task task_id b2) s).2
    = app u1 (PUT_task task_id b2) s.
Proof.
  assert (∀ b1 t2, parse_TaskCreate b2 = Some t2 →
            app u2 (PUT_task task_id b2) (app u1 (PUT_task task_id b1) s).2
            = app u2 (PUT_task task_id b2) s) as Hwins.
  { intros b t2 Hb2.
    destruct (parse_TaskCreate b) as [t1|] eqn:Hb1; last first.
    { by rewrite (app_invalid_body u1 s _ b) by eauto. }
    rewrite (app_PUT_task u1 _ _ _ _ Hb1), !(app_PUT_task u2 _ _ _ _ Hb2).
    destruct (find_task task_id (tasks_db s)) as [[i old]|] eqn:Hfind.
    - cbn [snd tasks_db task_id_counter].
      erewrite find_task_insert_same; [|done|by apply find_task_Some in Hfind as (_&?&_)].
      cbn. by rewrite list_insert_insert_eq.
    - cbn [snd]. by rewrite Hfind. }
  split.
  - intros [t2 Hb2]. by apply (Hwins b1 t2).
  - destruct (parse_TaskCreate b2) as [t2|] eqn:Hb2.
    + rewrite (Hwins b2 t2 eq_refl). clear Hwins.
      rewrite !(app_PUT_task _ _ _ _ _ Hb2). done.
    + clear Hwins. by rewrite !(app_invalid_body _ _ _ b2) by eauto.
Qed.

Lemma delete_length_app {A} (l : list A) x : delete (length l) (l ++ [x]) = l.
Proof. induction l as [|y l IH]; [done|]. cbn. f_equal. apply IH. Qed.

(** X10.  In a state reached from the empty store, deleting the task that a
    create has just added answers 204 and gives back the list of tasks held
    before the create; the counter stays one higher, so the id is not
    handed out again. *)
Theorem create_then_delete (reqs : list (string * Request)) (u1 u2 : string)
    (body : Body) :
  let s := (run reqs initial).2 in
  is_Some (parse_TaskCreate body) →
  ∃ new,
    (app u1 (POST_tasks body) s).1 = mkResponse 201 (JSON_Task new)
    ∧ app u2 (DELETE_task (Task.id new)) (app u1 (POST_tasks body) s).2
      = (mkResponse 204 Empty, mkState (tasks_db s) (task_id_counter s + 1)).
Proof.
  intros s [task Hbody].
  pose proof (app_POST_tasks u1 s body task Hbody) as Hpost.
  cbn zeta in Hpost. set (new := Task.mk _ _ _ _ _) in Hpost.
  exists new. rewrite Hpost. split; [done|].
  rewrite app_DELETE_task. cbn [snd tasks_db task_id_counter].
  rewrite find_task_append_new.
  - by rewrite delete_length_app.
  - destruct (run_store_ok reqs initial store_ok_initial) as [_ Hb _ _].
    intros (task1 & Heq & Hin)%list_elem_of_fmap.
    eapply Forall_forall in Hb; [|done]. cbn in Heq. fold s in Hb. lia.
Qed.

(** X11.  In a state reached from the empty store, two deletes can be served
    in either order: the final state is the same, and when the ids differ
    each delete gets the same answer in both orders. *)
Theorem deletes_commute (reqs : list (string * Request)) (u1 u2 : string)
    (a b : Z) :
  let s := (run reqs initial).2 in
  (app u2 (DELETE_task b) (app u1 (DELETE_task a) s).2).2
  = (app u1 (DELETE_task a) (app u2 (DELETE_task b) s).2).2
  ∧ (a ≠ b →
     (app u2 (DELETE_task b) (app u1 (DELETE_task a) s).2).1
     = (app u2 (DELETE_task b) s).1
     ∧ (app u1 (DELETE_task a) (app u2 (DELETE_task b) s).2).1
       = (app u1 (DELETE_task a) s).1).
Proof.
  intros s.
  assert (store_ok s) as Hok by apply run_store_ok, store_ok_initial.
  split.
  - rewrite (app_DELETE_task_filter u2 b (app u1 (DELETE_task a) s).2)
      by by apply store_ok_NoDup, app_store_ok.
    rewrite (app_DELETE_task_filter u1 a (app u2 (DELETE_task b) s).2)
      by by apply store_ok_NoDup, app_store_ok.
    rewrite (app_DELETE_task_filter u1 a s), (app_DELETE_task_filter u2 b s)
      by by apply store_ok_NoDup.
    cbn [tasks_db task_id_counter]. f_equal.
    rewrite !list_filter_filter. apply list_filter_iff. intros task. tauto.
  - assert (∀ u u' x y s0, x ≠ y →
              (app u (DELETE_task y) (app u' (DELETE_task x) s0).2).1
              = (app u (DELETE_task y) s0).1) as Hother.
    { intros u u' x y s0 Hne. rewrite (app_DELETE_task u' s0 x).
      destruct (find_task x (tasks_db s0)) as [[i task]|] eqn:Hfind; [|done].
      apply find_task_Some in Hfind as (Hi & Hid & _).
      rewrite !app_DELETE_task. cbn [snd tasks_db].
      assert (Task.id task ≠ y) as Hne' by congruence.
      pose proof (find_task_delete_other y _ i task Hi Hne') as Heq.
      by destruct (find_task y (delete i (tasks_db s0))) as [[??]|],
        (find_task y (tasks_db s0)) as [[??]|]. }
    intros Hne. split; apply Hother; congruence.
Qed.

(** X12.  In any state, serving one delete per stored task, in the order of
    the list and with the task's id, answers 204 each time and leaves the
    store empty with the counter unchanged; a list then answers 200 with
    no task.  This is the clean-up loop of [test_get_empty_tasks]. *)
Theorem delete_each_listed_empties (s : State) (reqs : list (string * Request))
    (utcnow : string) :
  snd <$> reqs = (λ task, DELETE_task (Task.id task)) <$> tasks_db s →
  Forall (λ resp, resp = mkResponse 204 Empty) (run reqs s).1
  ∧ (run reqs s).2 = mkState [] (task_id_counter s)
  ∧ (app utcnow GET_tasks (run reqs s).2).1 = mkResponse 200 (JSON_Tasks []).
Proof.
  intros Hreqs.
  assert (Forall (λ resp, resp = mkResponse 204 Empty) (run reqs s).1
          ∧ (run reqs s).2 = mkState [] (task_id_counter s)) as [Hresps Hs].
  { destruct s as [db c]. cbn [tasks_db task_id_counter] in *.
    revert reqs Hreqs. induction db as [|task db IH]; intros reqs Hreqs.
    - apply fmap_nil_inv in Hreqs as ->. by split.
    - destruct reqs as [|[u req] reqs]; [done|].
      rewrite !fmap_cons in Hreqs. injection Hreqs as Hreq Hreqs.
      cbn in Hreq. subst req. rewrite run_cons, app_DELETE_task.
      cbn [tasks_db task_id_counter]. rewrite find_task_cons, decide_True by done.
      cbn [fst snd delete list_delete].
      destruct (IH reqs Hreqs) as [IHresps IHs].
      split; [by constructor|done]. }
  split_and!; [done..|]. by rewrite Hs.
Qed.

(** ** Validation *)



(** * Properties of the handlers in full *)

Ltac unfold_traced :=
  unfold Full.app, Full.route_events, Full.get_tasks, Full.get_task,
    Full.create_task, Full.update_task, Full.delete_task, Full.root,
    Full.health_check, start_as_current_span, logger_info, logger_error, lift,
    read, raise, set_tasks_db, set_task_id_counter, mbind, Traced_bind, mret,
    Traced_ret; cbn.

(** The events of one task request, route by route. *)
Lemma Full_app_events utcnow req s :
  (Full.app utcnow req s).2 =
    match req with
    | GET_tasks =>
        [SpanStart "get_all_tasks";
         Log INFO ("GET /tasks - Retrieved " +:+ pretty (length (tasks_db s))
                   +:+ " tasks");
         SpanEnd "get_all_tasks" None]
    | GET_task task_id =>
        match find_task task_id (tasks_db s) with
        | Some _ =>
            [SpanStart "get_task_by_id";
             Log INFO ("GET /tasks/" +:+ pretty task_id);
             SpanEnd "get_task_by_id" None]
        | None =>
            [SpanStart "get_task_by_id";
             Log INFO ("GET /tasks/" +:+ pretty task_id);
             Log ERROR ("Task " +:+ pretty task_id +:+ " not found");
             SpanEnd "get_task_by_id"
               (Some (mkHTTPException 404 (not_found_detail task_id)))]
        end
    | POST_tasks body =>
        match parse_TaskCreate body with
        | Some task =>
            [SpanStart "create_task";
             Log INFO ("POST /tasks - Created task " +:+ pretty (task_id_counter s)
                       +:+ ": " +:+ TaskCreate.title task);
             SpanEnd "create_task" None]
        | None => []
        end
    | PUT_task task_id body =>
        match parse_TaskCreate body with
        | Some _ =>
            match find_task task_id (tasks_db s) with
            | Some _ =>
                [SpanStart "update_task";
                 Log INFO ("PUT /tasks/" +:+ pretty task_id);
                 Log INFO ("Task " +:+ pretty task_id +:+ " updated successfully");
                 SpanEnd "update_task" None]
            | None =>
                [SpanStart "update_task";
                 Log INFO ("PUT /tasks/" +:+ pretty task_id);
                 Log ERROR ("Task " +:+ pretty task_id +:+ " not found for update");
                 SpanEnd "update_task"
                   (Some (mkHTTPException 404 (not_found_detail task_id)))]
            end
        | None => []
        end
    | DELETE_task task_id =>
        match find_task task_id (tasks_db s) with
        | Some _ =>
            [SpanStart "delete_task";
             Log INFO ("DELETE /tasks/" +:+ pretty task_id);
             Log INFO ("Task " +:+ pretty task_id +:+ " deleted successfully");
             SpanEnd "delete_task" None]
        | None =>
            [SpanStart "delete_task";
             Log INFO ("DELETE /tasks/" +:+ pretty task_id);
             Log ERROR ("Task " +:+ pretty task_id +:+ " not found for deletion");
             SpanEnd "delete_task"
               (Some (mkHTTPException 404 (not_found_detail task_id)))]
        end
    end.
Proof.
  destruct req as [|task_id|body|task_id body|task_id]; unfold_traced.
  - done.
  - by destruct (find_task _ _) as [[??]|].
  - by destruct (parse_TaskCreate body).
  - destruct (parse_TaskCreate body); [|done].
    by destruct (find_task _ _) as [[??]|].
  - by destruct (find_task _ _) as [[??]|].
Qed.

Lemma Full_app_answer utcnow req s :
  (Full.app utcnow req s).1 = app utcnow req s.
Proof.
  destruct req as [|task_id|body|task_id body|task_id]; unfold_traced;
    unfold with_body, route, get_tasks, get_task, create_task, update_task,
      delete_task, read, raise, set_tasks_db, set_task_id_counter, mbind,
      Handler_bind, mret, Handler_ret; cbn.
  - done.
  - by destruct (find_task _ _) as [[??]|].
  - by destruct (parse_TaskCreate body).
  - destruct (parse_TaskCreate body); [|done].
    by destruct (find_task _ _) as [[??]|].
  - by destruct (find_task _ _) as [[??]|].
Qed.

(** The status of an answer, by what the request meets in the state. *)
Lemma app_status_cases utcnow req s :
  match req with
  | GET_tasks => status (app utcnow req s).1 ∈ [200; 500]
  | GET_task task_id | DELETE_task task_id =>
      match find_task task_id (tasks_db s) with
      | Some _ => status (app utcnow req s).1 ∈ [200; 204; 500]
      | None => status (app utcnow req s).1 = 404
      end
  | POST_tasks body =>
      match parse_TaskCreate body with
      | Some _ => status (app utcnow req s).1 = 201
      | None => status (app utcnow req s).1 = 422
      end
  | PUT_task task_id body =>
      match parse_TaskCreate body with
      | Some _ =>
          match find_task task_id (tasks_db s) with
          | Some _ => status (app utcnow req s).1 = 200
          | None => status (app utcnow req s).1 = 404
          end
      | None => status (app utcnow req s).1 = 422
      end
  end.
Proof.
  destruct req as [|task_id|body|task_id body|task_id].
  - rewrite app_GET_tasks. unfold response_List_Task.
    destruct (forallb _ _); cbn; repeat constructor.
  - rewrite app_GET_task. destruct (find_task _ _) as [[i task]|]; [|done].
    unfold response_Task. destruct (Task.validate task); cbn; repeat constructor.
  - destruct (parse_TaskCreate body) as [task|] eqn:Hbody.
    + by rewrite (app_POST_tasks _ _ _ _ Hbody).
    + rewrite (app_invalid_body _ _ _ body); eauto.
  - destruct (parse_TaskCreate body) as [task_update|] eqn:Hbody.
    + rewrite (app_PUT_task _ _ _ _ _ Hbody).
      by destruct (find_task _ _) as [[i task]|].
    + rewrite (app_invalid_body _ _ _ body); eauto.
  - rewrite app_DELETE_task.
    destruct (find_task _ _) as [[i task]|]; [|done]. cbn. repeat constructor.
Qed.

Ltac status_cases utcnow req s :=
  pose proof (app_status_cases utcnow req s) as Hstatus;
  rewrite Full_app_events, Full_app_answer;
  destruct req as [|task_id|body|task_id body|task_id]; cbn [fst snd] in *;
  repeat match goal with
    | H : context [parse_TaskCreate ?b] |- _ => destruct (parse_TaskCreate b)
    | H : context [find_task ?i ?db] |- _ => destruct (find_task i db) as [[??]|]
    end;
  repeat match goal with
    | H : _ ∈ _ :: _ |- _ => apply elem_of_cons in H as [H|H]
    | H : _ ∈ [] |- _ => by apply not_elem_of_nil in H
    end.


(** X15.  In any state, a task request that is answered 422 emits nothing,
    since its handler is not entered; any other task request emits exactly
    one span, named after its handler, that starts before and ends after all
    its log records, also when the handler raises; and the span ends with an
    exception exactly when the answer is 404. *)
Theorem one_span_per_request (utcnow : string) (req : Request) (s : State) :
  let name :=
    match req with
    | GET_tasks => "get_all_tasks"
    | GET_task _ => "get_task_by_id"
    | POST_tasks _ => "create_task"
    | PUT_task _ _ => "update_task"
    | DELETE_task _ => "delete_task"
    end in
  let resp := (Full.app utcnow req s).1.1 in
  let evs := (Full.app utcnow req s).2 in
  if decide (status resp = 422) then evs = []
  else ∃ logs exc,
      evs = SpanStart name :: logs ++ [SpanEnd name exc]
      ∧ forallb is_log logs = true
      ∧ (is_Some exc ↔ status resp = 404).
Proof.
  intros name resp evs. unfold name, resp, evs. clear name resp evs.
  status_cases utcnow req s; rewrite Hstatus; case_decide; try done;
    (first [ eexists [_], _; split_and!; [reflexivity|done|]
           | eexists [_; _], _; split_and!; [reflexivity|done|] ]);
    (split; [intros [? ?]|intros ?]; simplify_eq; eauto).
Qed.

(** X16.  In any state, a task request logs a record of level ERROR exactly
    when it is answered 404: a validation error and a success log none. *)
Theorem error_log_iff_not_found (utcnow : string) (req : Request) (s : State) :
  existsb is_error_log (Full.app utcnow req s).2 = true
  ↔ status (Full.app utcnow req s).1.1 = 404.
Proof.
  status_cases utcnow req s; rewrite Hstatus; cbn; split; intros; simplify_eq; done.
Qed.

(** X17.  In any state, the log record of a successful request reports what
    was answered: a list answered 200 logs the number of tasks it returned,
    and a create answered 201 logs the id and the title of the task it
    returned, the id being read before the counter is incremented. *)
Theorem log_reports_answer (utcnow : string) (s : State) (body : Body) :
  (∀ tasks,
     (Full.app utcnow GET_tasks s).1.1 = mkResponse 200 (JSON_Tasks tasks) →
     Log INFO ("GET /tasks - Retrieved " +:+ pretty (length tasks) +:+ " tasks")
     ∈ (Full.app utcnow GET_tasks s).2)
  ∧ (∀ new,
       (Full.app utcnow (POST_tasks body) s).1.1 = mkResponse 201 (JSON_Task new) →
       Log INFO ("POST /tasks - Created task " +:+ pretty (Task.id new) +:+ ": "
                 +:+ Task.title new)
       ∈ (Full.app utcnow (POST_tasks body) s).2).
Proof.
  split.
  - intros tasks. rewrite Full_app_events, Full_app_answer, app_GET_tasks.
    unfold response_List_Task. destruct (forallb _ _); [|done].
    cbn. intros [= <-]. repeat constructor.
  - intros new. rewrite Full_app_events, Full_app_answer.
    destruct (parse_TaskCreate body) as [task|] eqn:Hbody.
    + rewrite (app_POST_tasks _ _ _ _ Hbody). cbn. intros [= <-]. cbn.
      repeat constructor.
    + by rewrite (app_invalid_body _ _ _ body) by eauto.
Qed.

(** ** The root and health routes among the task requests *)

Lemma serve_all_cons utcnow e es s :
  serve_all ((utcnow, e) :: es) s =
    ((serve utcnow e s).1.1 :: (serve_all es (serve utcnow e s).1.2).1.1,
     (serve_all es (serve utcnow e s).1.2).1.2,
     (serve utcnow e s).2 ++ (serve_all es (serve utcnow e s).1.2).2).
Proof.
  cbn [serve_all]. destruct (serve utcnow e s) as [[a s'] evs]. cbn [fst snd].
  by destruct (serve_all es s') as [[answers s''] evs'].
Qed.

Lemma serve_Tasks utcnow req s :
  (serve utcnow (Tasks req) s).1 = (TasksAnswer (app utcnow req s).1, (app utcnow req s).2).
Proof.
  cbn. rewrite <-Full_app_answer. by destruct (Full.app utcnow req s) as [[??]?].
Qed.

(** X18.  In any state and for any sequence of requests to the root, health
    and task routes: the root and health requests do not touch the store, so
    that the final state and the answers to the task requests are those of
    the task requests served alone; a health request is answered 200 with
    status "healthy" and the clock reading, and a root request 200 with the
    welcome dictionary. *)
Theorem root_and_health_are_inert (es : list (string * Endpoint)) (s : State)
    (utcnow : string) :
  (serve_all es s).1.2 = (run (task_requests es) s).2
  ∧ task_answers es (serve_all es s).1.1 = (run (task_requests es) s).1
  ∧ (serve utcnow GET_health s).1
    = (HealthAnswer 200 (Full.mkHealthInfo "healthy" utcnow "task-manager-api"), s)
  ∧ (serve utcnow GET_root s).1
    = (RootAnswer 200 (Full.mkRootInfo "Welcome to Task Manager API" "/docs"
                         "/health" "/metrics"), s).
Proof.
  split_and!; [| |done..].
  - revert s. induction es as [|[u e] es IH]; intros s; [done|].
    rewrite serve_all_cons. cbn [fst snd]. rewrite IH.
    destruct e as [| |req]; [done..|].
    unfold task_requests. cbn [omap list_omap fst snd].
    rewrite run_cons, serve_Tasks. done.
  - revert s. induction es as [|[u e] es IH]; intros s; [done|].
    rewrite serve_all_cons. cbn [fst snd]. unfold task_answers in *.
    cbn [zip zip_with omap list_omap].
    destruct e as [| |req].
    + cbn. apply IH.
    + cbn. apply IH.
    + unfold task_requests. cbn [omap list_omap fst snd].
      rewrite run_cons, serve_Tasks. cbn [fst snd]. f_equal. apply IH.
Qed.

(** * Properties of the test suite *)

Lemma client_Tasks utcnow req s :
  client utcnow (Tasks req) s
  = (Some (TasksAnswer (app utcnow req s).1), (app utcnow req s).2).
Proof. unfold client. by rewrite serve_Tasks. Qed.

Lemma client_POST_tasks utcnow body task s :
  parse_TaskCreate body = Some task →
  let new_task :=
    Task.mk (task_id_counter s) (TaskCreate.title task)
      (TaskCreate.description task) (TaskCreate.completed task) utcnow in
  client utcnow (Tasks (POST_tasks body)) s
  = (Some (TasksAnswer (mkResponse 201 (JSON_Task new_task))),
     mkState (tasks_db s ++ [new_task]) (task_id_counter s + 1)).
Proof. intros Hbody. cbn zeta. by rewrite client_Tasks, (app_POST_tasks _ _ _ _ Hbody). Qed.

Lemma client_PUT_task utcnow task_id body task_update s :
  parse_TaskCreate body = Some task_update →
  client utcnow (Tasks (PUT_task task_id body)) s
  = match find_task task_id (tasks_db s) with
    | None =>
        (Some (TasksAnswer
                 (mkResponse 404 (JSON_detail (not_found_detail task_id)))), s)
    | Some (i, task) =>
        let task' :=
          Task.mk (Task.id task) (TaskCreate.title task_update)
            (TaskCreate.description task_update)
            (TaskCreate.completed task_update) (Task.created_at task) in
        (Some (TasksAnswer (mkResponse 200 (JSON_Task task'))),
         mkState (<[i := task']> (tasks_db s)) (task_id_counter s))
    end.
Proof.
  intros Hbody. rewrite client_Tasks, (app_PUT_task _ _ _ _ _ Hbody).
  by destruct (find_task _ _) as [[??]|].
Qed.

#[local] Arguments client : simpl never.

(** One step of a test: the values read and the assertions checked up to
    the next request, and the next request when it is a create or an update
    with a valid body. *)
Ltac test_step :=
  unfold mbind, Test_bind, assert, value; cbn;
  try match goal with
    | |- context [client ?u (Tasks (POST_tasks ?b)) ?s] =>
        let t := eval vm_compute in (parse_TaskCreate b) in
        match t with
        | Some ?task =>
            rewrite (client_POST_tasks u b task s eq_refl); cbn
        end
    | |- context [client ?u (Tasks (PUT_task ?i ?b)) ?s] =>
        let t := eval vm_compute in (parse_TaskCreate b) in
        match t with
        | Some ?task =>
            rewrite (client_PUT_task u i b task s eq_refl);
            cbn [tasks_db task_id_counter]
        end
    end.

Lemma store_ok_counter_fresh s :
  store_ok s → task_id_counter s ∉ Task.id <$> tasks_db s.
Proof.
  intros [_ Hb _ _] (task & Heq & Hin)%list_elem_of_fmap.
  eapply Forall_forall in Hb; [|done]. cbn in Hb. lia.
Qed.

Lemma find_task_append_fresh task_id db new :
  Task.id new = task_id → task_id ∉ Task.id <$> db →
  find_task task_id (db ++ [new]) = Some (length db, new).
Proof. intros <-. apply find_task_append_new. Qed.

Lemma response_Task_valid task :
  Task.validate task = true → response_Task task = Some (JSON_Task task).
Proof. unfold response_Task. by intros ->. Qed.

Lemma test_root_runs utcnow s : Tests.test_root utcnow s = (Some (), s).
Proof. done. Qed.

Lemma test_health_check_runs utcnow s :
  Tests.test_health_check utcnow s = (Some (), s).
Proof. done. Qed.

Lemma test_create_task_runs utcnow s :
  Tests.test_create_task utcnow s
  = (Some (),
     mkState (tasks_db s
              ++ [Task.mk (task_id_counter s) "Test Task"
                    (Some "This is a test task") false utcnow])
       (task_id_counter s + 1)).
Proof. unfold Tests.test_create_task. by test_step. Qed.

Lemma test_create_task_without_description_runs utcnow s :
  Tests.test_create_task_without_description utcnow s
  = (Some (),
     mkState (tasks_db s
              ++ [Task.mk (task_id_counter s) "Task without description"
                    None false utcnow])
       (task_id_counter s + 1)).
Proof. unfold Tests.test_create_task_without_description. by test_step. Qed.

Lemma test_create_task_validation_error_runs utcnow s :
  Tests.test_create_task_validation_error utcnow s = (Some (), s).
Proof.
  unfold Tests.test_create_task_validation_error. test_step.
  rewrite client_Tasks, (app_invalid_body _ _ _ (mkBody (Some "") None (Some false)));
    by eauto.
Qed.

Lemma test_get_task_by_id_runs utcnow s :
  task_id_counter s ∉ Task.id <$> tasks_db s →
  Tests.test_get_task_by_id utcnow s
  = (Some (),
     mkState (tasks_db s
              ++ [Task.mk (task_id_counter s) "Get Task Test"
                    (Some "Task to test GET by ID") false utcnow])
       (task_id_counter s + 1)).
Proof.
  intros Hfresh.
  unfold Tests.test_get_task_by_id. test_step.
  rewrite client_Tasks, app_GET_task. cbn [tasks_db].
  rewrite (find_task_append_fresh (task_id_counter s)) by done.
  rewrite response_Task_valid by done. cbn.
  by rewrite Z.eqb_refl.
Qed.

Lemma client_DELETE_head utcnow task db c :
  client utcnow (Tasks (DELETE_task (Task.id task))) (mkState (task :: db) c)
  = (Some (TasksAnswer (mkResponse 204 Empty)), mkState db c).
Proof.
  rewrite client_Tasks, app_DELETE_task. cbn [tasks_db].
  by rewrite find_task_cons, decide_True.
Qed.

Lemma for_each_delete utcnow db c :
  for_each (Task_json <$> db) (λ task,
    id ← value (getitem "id" task);
    task_id ← value (match id with JInt n => Some n | _ => None end);
    client utcnow (Tasks (DELETE_task task_id));;
    mret ()) (mkState db c)
  = (Some (), mkState [] c).
Proof.
  induction db as [|task db IH]; [done|].
  rewrite fmap_cons. cbn [for_each]. unfold mbind at 1, Test_bind at 1.
  unfold mbind at 1 2 3, Test_bind at 1 2 3, value. cbn [getitem Task_json lookup_key String.eqb Ascii.eqb Bool.eqb fst snd].
  cbn. rewrite client_DELETE_head. cbn. apply IH.
Qed.

Lemma test_get_empty_tasks_runs utcnow s :
  store_ok s →
  Tests.test_get_empty_tasks utcnow s = (Some (), mkState [] (task_id_counter s)).
Proof.
  intros [_ _ _ Hv%store_ok_response_List_Task_ok].
  unfold Tests.test_get_empty_tasks. unfold mbind at 1, Test_bind at 1.
  rewrite client_Tasks, app_GET_tasks. unfold response_List_Task. rewrite Hv.
  cbn [fst snd]. unfold mbind at 1 2, Test_bind at 1 2, value.
  cbn [answer_json content]. unfold mbind at 1, Test_bind at 1.
  destruct s as [db c]. cbn [tasks_db task_id_counter].
  rewrite for_each_delete. by test_step.
Qed.

Lemma insert_length_app {A} (l : list A) x y :
  <[length l := y]> (l ++ [x]) = l ++ [y].
Proof. induction l as [|z l IH]; [done|]. cbn. f_equal. apply IH. Qed.

Lemma test_update_task_runs utcnow s :
  task_id_counter s ∉ Task.id <$> tasks_db s →
  Tests.test_update_task utcnow s
  = (Some (),
     mkState (tasks_db s
              ++ [Task.mk (task_id_counter s) "Updated Title"
                    (Some "Updated description") true utcnow])
       (task_id_counter s + 1)).
Proof.
  intros Hfresh. unfold Tests.test_update_task. test_step. test_step.
  rewrite (find_task_append_fresh (task_id_counter s)) by done.
  cbn. by rewrite insert_length_app.
Qed.

Lemma test_delete_task_runs utcnow s :
  task_id_counter s ∉ Task.id <$> tasks_db s →
  Tests.test_delete_task utcnow s
  = (Some (), mkState (tasks_db s) (task_id_counter s + 1)).
Proof.
  intros Hfresh. unfold Tests.test_delete_task. test_step.
  rewrite client_Tasks, app_DELETE_task. cbn [tasks_db task_id_counter].
  rewrite (find_task_append_fresh (task_id_counter s)) by done.
  cbn [fst snd]. rewrite delete_length_app. cbn.
  rewrite client_Tasks, app_GET_task. cbn [tasks_db].
  apply find_task_None in Hfresh. by rewrite Hfresh.
Qed.

(** The three tests on id 99999. *)
Lemma find_task_is_Some task_id db :
  task_id ∈ Task.id <$> db → ∃ i task, find_task task_id db = Some (i, task).
Proof.
  intros Hin. destruct (find_task task_id db) as [[i task]|] eqn:Hfind; [by eauto|].
  by apply find_task_None in Hfind.
Qed.

Lemma test_get_nonexistent_task_absent utcnow s :
  99999 ∉ Task.id <$> tasks_db s →
  Tests.test_get_nonexistent_task utcnow s = (Some (), s).
Proof.
  intros Habs%find_task_None. unfold Tests.test_get_nonexistent_task.
  unfold mbind at 1, Test_bind at 1. rewrite client_Tasks, app_GET_task, Habs.
  by vm_compute.
Qed.

Lemma test_get_nonexistent_task_present utcnow s :
  99999 ∈ Task.id <$> tasks_db s →
  (Tests.test_get_nonexistent_task utcnow s).1 = None.
Proof.
  intros (i & task & Hfind)%find_task_is_Some.
  unfold Tests.test_get_nonexistent_task.
  unfold mbind at 1, Test_bind at 1. rewrite client_Tasks, app_GET_task, Hfind.
  unfold response_Task. by destruct (Task.validate task).
Qed.

Lemma test_update_nonexistent_task_absent utcnow s :
  99999 ∉ Task.id <$> tasks_db s →
  Tests.test_update_nonexistent_task utcnow s = (Some (), s).
Proof.
  intros Habs%find_task_None. unfold Tests.test_update_nonexistent_task.
  test_step. by rewrite Habs.
Qed.

Lemma test_update_nonexistent_task_present utcnow s :
  99999 ∈ Task.id <$> tasks_db s →
  (Tests.test_update_nonexistent_task utcnow s).1 = None.
Proof.
  intros (i & task & Hfind)%find_task_is_Some.
  unfold Tests.test_update_nonexistent_task.
  test_step. by rewrite Hfind.
Qed.

Lemma test_delete_nonexistent_task_absent utcnow s :
  99999 ∉ Task.id <$> tasks_db s →
  Tests.test_delete_nonexistent_task utcnow s = (Some (), s).
Proof.
  intros Habs%find_task_None. unfold Tests.test_delete_nonexistent_task.
  unfold mbind at 1, Test_bind at 1.
  by rewrite client_Tasks, app_DELETE_task, Habs.
Qed.

Lemma test_delete_nonexistent_task_present utcnow s :
  99999 ∈ Task.id <$> tasks_db s →
  (Tests.test_delete_nonexistent_task utcnow s).1 = None.
Proof.
  intros (i & task & Hfind)%find_task_is_Some.
  unfold Tests.test_delete_nonexistent_task.
  unfold mbind at 1, Test_bind at 1.
  by rewrite client_Tasks, app_DELETE_task, Hfind.
Qed.

(** X19.  In every state reached from the empty store, the tests that do
    not rely on a fixed id pass: the root and health tests, the clean-up
    test, the three create tests, and the tests that create a task and then
    get, update or delete it by the id they were given. *)
Theorem tests_pass (reqs : list (string * Request)) (utcnow : string) :
  let s := (run reqs initial).2 in
  (Tests.test_root utcnow s).1 = Some ()
  ∧ (Tests.test_health_check utcnow s).1 = Some ()
  ∧ (Tests.test_get_empty_tasks utcnow s).1 = Some ()
  ∧ (Tests.test_create_task utcnow s).1 = Some ()
  ∧ (Tests.test_create_task_without_description utcnow s).1 = Some ()
  ∧ (Tests.test_create_task_validation_error utcnow s).1 = Some ()
  ∧ (Tests.test_get_task_by_id utcnow s).1 = Some ()
  ∧ (Tests.test_update_task utcnow s).1 = Some ()
  ∧ (Tests.test_delete_task utcnow s).1 = Some ().
Proof.
  intros s.
  assert (store_ok s) as Hok by apply run_store_ok, store_ok_initial.
  pose proof (store_ok_counter_fresh s Hok) as Hfresh.
  split_and!.
  - by rewrite test_root_runs.
  - by rewrite test_health_check_runs.
  - by rewrite test_get_empty_tasks_runs.
  - by rewrite test_create_task_runs.
  - by rewrite test_create_task_without_description_runs.
  - by rewrite test_create_task_validation_error_runs.
  - by rewrite test_get_task_by_id_runs.
  - by rewrite test_update_task_runs.
  - by rewrite test_delete_task_runs.
Qed.

(** X20.  In any state, each of the three tests that expect id 99999 to be
    unknown passes exactly when no stored task has the id 99999. *)
Theorem nonexistent_tests_need_free_id (utcnow : string) (s : State) :
  ((Tests.test_get_nonexistent_task utcnow s).1 = Some ()
   ↔ 99999 ∉ Task.id <$> tasks_db s)
  ∧ ((Tests.test_update_nonexistent_task utcnow s).1 = Some ()
     ↔ 99999 ∉ Task.id <$> tasks_db s)
  ∧ ((Tests.test_delete_nonexistent_task utcnow s).1 = Some ()
     ↔ 99999 ∉ Task.id <$> tasks_db s).
Proof.
  split_and!; (split; [intros Hpass Hin|intros Habs]).
  - by rewrite test_get_nonexistent_task_present in Hpass.
  - by rewrite test_get_nonexistent_task_absent.
  - by rewrite test_update_nonexistent_task_present in Hpass.
  - by rewrite test_update_nonexistent_task_absent.
  - by rewrite test_delete_nonexistent_task_present in Hpass.
  - by rewrite test_delete_nonexistent_task_absent.
Qed.

Lemma run_tests_cons test tests utcnow clock s :
  run_tests (test :: tests) (utcnow :: clock) s
  = (bool_decide (is_Some (test utcnow s).1)
       :: (run_tests tests clock (test utcnow s).2).1,
     (run_tests tests clock (test utcnow s).2).2).
Proof.
  cbn [run_tests]. destruct (test utcnow s) as [r s']. cbn [fst snd].
  by destruct (run_tests tests clock s') as [rs s''].
Qed.

Lemma bool_decide_is_Some_None {A} : bool_decide (is_Some (@None A)) = false.
Proof. apply bool_decide_eq_false_2, is_Some_None. Qed.

Lemma bool_decide_is_Some_Some {A} (x : A) : bool_decide (is_Some (Some x)) = true.
Proof. by apply bool_decide_eq_true_2. Qed.

Ltac next_test lem :=
  rewrite run_tests_cons, lem;
  cbn [fst snd tasks_db task_id_counter app];
  rewrite ?bool_decide_is_Some_Some.

Ltac ids_arith :=
  cbn; rewrite ?elem_of_cons, ?elem_of_nil; lia.

(** X21.  A session of the twelve tests, run in the order of the file on a
    store in any state reached from the empty store, passes entirely unless
    the counter is between 99996 and 99999 at its start: the clean-up test
    empties the store, the tests that follow create the ids from the counter
    on, and 99999 must not be among those stored when each of the three
    tests on id 99999 runs. *)
Theorem test_session (reqs : list (string * Request)) (clock : list string) :
  length clock = 12%nat →
  let s := (run reqs initial).2 in
  (run_tests test_suite clock s).1 = replicate 12 true
  ↔ ¬ (99996 ≤ task_id_counter s ≤ 99999).
Proof.
  intros Hclock s.
  assert (store_ok s) as Hok by apply run_store_ok, store_ok_initial.
  do 12 (destruct clock as [|? clock]; [done|]). destruct clock; [|done].
  clear Hclock. unfold test_suite.
  next_test test_root_runs. next_test test_health_check_runs.
  rewrite run_tests_cons, test_get_empty_tasks_runs by done.
  cbn [fst snd]. rewrite bool_decide_is_Some_Some.
  generalize (task_id_counter s) as c. clear s Hok. intros c.
  next_test test_create_task_runs.
  next_test test_create_task_without_description_runs.
  next_test test_create_task_validation_error_runs.
  rewrite run_tests_cons, test_get_task_by_id_runs; [|ids_arith].
  cbn [fst snd tasks_db task_id_counter app].
  rewrite ?bool_decide_is_Some_Some.
  set (st7 := mkState _ (c + 1 + 1 + 1)).
  destruct (decide (99999 ∈ Task.id <$> tasks_db st7)) as [Hin|Hout].
  { rewrite run_tests_cons.
    rewrite (test_get_nonexistent_task_present _ st7 Hin), bool_decide_is_Some_None.
    split; [done|]. intros Hc. exfalso. apply Hc. revert Hin. ids_arith. }
  next_test test_get_nonexistent_task_absent; [|done].
  rewrite run_tests_cons, test_update_task_runs; [|ids_arith].
  cbn [fst snd tasks_db task_id_counter app]. rewrite ?bool_decide_is_Some_Some.
  set (st9 := mkState _ (task_id_counter st7 + 1)).
  destruct (decide (99999 ∈ Task.id <$> tasks_db st9)) as [Hin|Hout'].
  { rewrite run_tests_cons.
    rewrite (test_update_nonexistent_task_present _ st9 Hin), bool_decide_is_Some_None.
    split; [done|]. intros Hc. exfalso. apply Hc. revert Hin. ids_arith. }
  next_test test_update_nonexistent_task_absent; [|done].
  rewrite run_tests_cons, test_delete_task_runs; [|ids_arith].
  cbn [fst snd tasks_db task_id_counter app]. rewrite ?bool_decide_is_Some_Some.
  next_test test_delete_nonexistent_task_absent; [|done].
  split; [|done]. intros _. revert Hout Hout'. ids_arith.
Qed.

(** * Error records over a sequence of requests *)

Lemma serve_error_logs utcnow e s :
  length (filter (λ ev, is_error_log ev = true) (serve utcnow e s).2)
  = if decide (answer_status_code (serve utcnow e s).1.1 = 404) then 1%nat else 0%nat.
Proof.
  destruct e as [| |req]; [done..|].
  cbn [serve]. destruct (Full.app utcnow req s) as [[resp s'] evs] eqn:Happ.
  cbn [fst snd answer_status_code].
  replace evs with (Full.app utcnow req s).2 by by rewrite Happ.
  replace resp with (Full.app utcnow req s).1.1 by by rewrite Happ.
  clear Happ resp s' evs.
  status_cases utcnow req s; rewrite Hstatus; by case_decide.
Qed.

(** X22.  In any state and for any sequence of requests to the root, health
    and task routes, the number of ERROR records logged is the number of
    answers with status 404: each request answered 404 logs exactly one, and
    no other request logs any. *)
Theorem error_records_count_not_found (es : list (string * Endpoint)) (s : State) :
  length (filter (λ ev, is_error_log ev = true) (serve_all es s).2)
  = length (filter (λ a, answer_status_code a = 404) (serve_all es s).1.1).
Proof.
  revert s. induction es as [|[utcnow e] es IH]; intros s; [done|].
  rewrite serve_all_cons. cbn [fst snd].
  rewrite filter_app, length_app, IH, serve_error_logs, filter_cons.
  by case_decide.
Qed.

(** * The further properties at concrete inputs *)

Lemma delete_removes_one_witness :
  let reqs := [("t1", POST_tasks (mkBody (Some "a") None None));
               ("t2", POST_tasks (mkBody (Some "b") None None))] in
  let s := (run reqs initial).2 in
  (1 ∈ Task.id <$> tasks_db s)
  ∧ tasks_db (app "t3" (DELETE_task 1) s).2
    = filter (λ task, Task.id task ≠ 1) (tasks_db s)
  ∧ S (length (tasks_db (app "t3" (DELETE_task 1) s).2)) = length (tasks_db s).
Proof.
  intros reqs s.
  assert (1 ∈ Task.id <$> tasks_db s) as Hin by (vm_compute; apply list_elem_of_here).
  split; [exact Hin|].
  destruct (delete_removes_one reqs "t3" 1 Hin) as (_ & Hdb & Hlen & _).
  split; [exact Hdb|exact Hlen].
Defined.

Lemma writes_leave_other_ids_witness :
  let s := (run [("t1", POST_tasks (mkBody (Some "a") None None));
                 ("t2", POST_tasks (mkBody (Some "b") None None))] initial).2 in
  let body := mkBody (Some "c") None None in
  2 ≠ 1
  ∧ (app "t4" (GET_task 2) (app "t3" (PUT_task 1 body) s).2).1
    = (app "t4" (GET_task 2) s).1
  ∧ (app "t4" (GET_task 2) (app "t3" (DELETE_task 1) s).2).1
    = (app "t4" (GET_task 2) s).1.
Proof.
  intros s body. assert (2 ≠ 1) as Hne by lia. split; [exact Hne|].
  exact (proj1 (writes_leave_other_ids "t3" "t4" s 1 2 body) Hne).
Defined.

Lemma error_leaves_state_witness :
  400 ≤ status (app "t" (DELETE_task 5) initial).1
  ∧ (app "t" (DELETE_task 5) initial).2 = initial.
Proof.
  assert (400 ≤ status (app "t" (DELETE_task 5) initial).1) as Hstatus
    by (vm_compute; discriminate).
  split; [exact Hstatus|]. exact (error_leaves_state "t" (DELETE_task 5) initial Hstatus).
Defined.

Lemma stored_task_provenance_witness :
  let reqs := [("t1", POST_tasks (mkBody (Some "a") None None));
               ("t2", PUT_task 1 (mkBody (Some "b") None None))] in
  let task := Task.mk 1 "b" None false "t1" in
  task ∈ tasks_db (run reqs initial).2
  ∧ ∃ k utcnow body resp,
      reqs !! k = Some (utcnow, POST_tasks body)
      ∧ (run reqs initial).1 !! k = Some resp
      ∧ created_id resp = Some 1
      ∧ "t1" = utcnow.
Proof.
  intros reqs task.
  assert (task ∈ tasks_db (run reqs initial).2) as Hin
    by (vm_compute; apply list_elem_of_here).
  split; [exact Hin|]. exact (stored_task_provenance reqs task Hin).
Defined.

Lemma update_last_write_wins_witness :
  let s := (run [("t1", POST_tasks (mkBody (Some "a") None None))] initial).2 in
  let b1 := mkBody (Some "x") (Some "d") (Some true) in
  let b2 := mkBody (Some "y") None None in
  is_Some (parse_TaskCreate b2)
  ∧ app "t3" (PUT_task 1 b2) (app "t2" (PUT_task 1 b1) s).2
    = app "t3" (PUT_task 1 b2) s.
Proof.
  intros s b1 b2.
  assert (is_Some (parse_TaskCreate b2)) as Hb2 by (vm_compute; eauto).
  split; [exact Hb2|].
  exact (proj1 (update_last_write_wins "t2" "t3" s 1 b1 b2) Hb2).
Defined.

Lemma create_then_delete_witness :
  let body := mkBody (Some "a") None None in
  is_Some (parse_TaskCreate body)
  ∧ ∃ new,
      (app "t1" (POST_tasks body) (run [] initial).2).1
      = mkResponse 201 (JSON_Task new)
      ∧ app "t2" (DELETE_task (Task.id new))
          (app "t1" (POST_tasks body) (run [] initial).2).2
        = (mkResponse 204 Empty, mkState [] 2).
Proof.
  intros body.
  assert (is_Some (parse_TaskCreate body)) as Hbody by (vm_compute; eauto).
  split; [exact Hbody|]. exact (create_then_delete [] "t1" "t2" body Hbody).
Defined.

Lemma deletes_commute_witness :
  let s := (run [("t1", POST_tasks (mkBody (Some "a") None None));
                 ("t2", POST_tasks (mkBody (Some "b") None None))] initial).2 in
  1 ≠ 2
  ∧ (app "t4" (DELETE_task 2) (app "t3" (DELETE_task 1) s).2).1
    = (app "t4" (DELETE_task 2) s).1
  ∧ (app "t3" (DELETE_task 1) (app "t4" (DELETE_task 2) s).2).1
    = (app "t3" (DELETE_task 1) s).1.
Proof.
  intros s. assert (1 ≠ 2) as Hne by lia. split; [exact Hne|].
  exact (proj2 (deletes_commute
                  [("t1", POST_tasks (mkBody (Some "a") None None));
                   ("t2", POST_tasks (mkBody (Some "b") None None))]
                  "t3" "t4" 1 2) Hne).
Defined.

Lemma delete_each_listed_empties_witness :
  let s := mkState [Task.mk 1 "a" None false "t1"; Task.mk 2 "b" None true "t2"] 3 in
  let reqs := [("t3", DELETE_task 1); ("t4", DELETE_task 2)] in
  snd <$> reqs = (λ task, DELETE_task (Task.id task)) <$> tasks_db s
  ∧ (run reqs s).2 = mkState [] 3.
Proof.
  intros s reqs.
  assert (snd <$> reqs = (λ task, DELETE_task (Task.id task)) <$> tasks_db s)
    as Hreqs by reflexivity.
  split; [exact Hreqs|].
  destruct (delete_each_listed_empties s reqs "t5" Hreqs) as (_ & Hs & _).
  exact Hs.
Defined.


Lemma one_span_per_request_witness :
  (Full.app "t" (POST_tasks (mkBody (Some "") None None)) initial).2 = [].
Proof.
  exact (one_span_per_request "t" (POST_tasks (mkBody (Some "") None None)) initial).
Defined.

Lemma error_log_iff_not_found_witness :
  status (Full.app "t" (DELETE_task 7) initial).1.1 = 404
  ∧ existsb is_error_log (Full.app "t" (DELETE_task 7) initial).2 = true.
Proof.
  assert (status (Full.app "t" (DELETE_task 7) initial).1.1 = 404) as Hstatus
    by reflexivity.
  split; [exact Hstatus|].
  apply (error_log_iff_not_found "t" (DELETE_task 7) initial). exact Hstatus.
Defined.

Lemma log_reports_answer_witness :
  (Full.app "t" GET_tasks initial).1.1 = mkResponse 200 (JSON_Tasks [])
  ∧ Log INFO "GET /tasks - Retrieved 0 tasks" ∈ (Full.app "t" GET_tasks initial).2.
Proof.
  assert ((Full.app "t" GET_tasks initial).1.1 = mkResponse 200 (JSON_Tasks []))
    as Hresp by reflexivity.
  split; [exact Hresp|].
  destruct (log_reports_answer "t" initial (mkBody None None None)) as [Hlist _].
  exact (Hlist [] Hresp).
Defined.

Lemma nonexistent_tests_need_free_id_witness :
  (99999 ∉ Task.id <$> tasks_db initial)
  ∧ (Tests.test_get_nonexistent_task "t" initial).1 = Some ().
Proof.
  assert (99999 ∉ Task.id <$> tasks_db initial) as Habs
    by (cbn; apply not_elem_of_nil).
  split; [exact Habs|].
  apply (nonexistent_tests_need_free_id "t" initial). exact Habs.
Defined.

Lemma test_session_witness :
  let clock := ["t1"; "t2"; "t3"; "t4"; "t5"; "t6"; "t7"; "t8"; "t9"; "t10";
                "t11"; "t12"] in
  length clock = 12%nat
  ∧ ¬ (99996 ≤ task_id_counter (run [] initial).2 ≤ 99999)
  ∧ (run_tests test_suite clock (run [] initial).2).1 = replicate 12 true.
Proof.
  intros clock.
  assert (length clock = 12%nat) as Hclock by reflexivity.
  assert (¬ (99996 ≤ task_id_counter (run [] initial).2 ≤ 99999)) as Hc
    by (cbn; lia).
  split_and!; [exact Hclock|exact Hc|].
  apply (test_session [] clock Hclock). exact Hc.
Defined.
